(** * Virtual TA: ingestion normalizer and the POST / handler

    A shallow embedding of the repository:

    - [scripts/process_data.py], function [load_documents_with_metadata]:
      the record normalizer that turns course pages and Discourse posts
      into [Document]s;
    - [main.py], functions [startup_event] and [query_ta]: the global
      query engine and the POST / handler that builds the source links;
    - [scripts/process_data.py], function [create_and_persist_index]
      and the main block: the build of the index;
    - [scripts/virtual_ta_app.py], the main block: the command-line
      session.

    Python values are an inductive type, Python [str] is Rocq's [string]
    (one character per code point below 256), [print] appends an event to
    a log, and exceptions are threaded through a small state-and-exception
    monad in which the state survives a raise, as a mutated Python list
    does.  The libraries the code calls ([json.loads], pydantic's
    validation of a [str] field, the query engine) are parameters. *)

From Stdlib Require Import String Ascii List ZArith Bool Arith.
From Stdlib Require Import SpecFloat.
Import ListNotations.
Local Open Scope string_scope.
Local Open Scope list_scope.
Set Warnings "-register-all".

(* ================================================================== *)
(** * Python values and the string methods the code uses *)
(* ================================================================== *)

Module Py.

(** What [json.loads] can return and what a metadata dict can hold.
    A [dict] keeps its insertion order; [float] is an IEEE binary64. *)
Inductive value : Type :=
| VNone
| VBool (b : bool)
| VInt (z : Z)
| VFloat (f : spec_float)
| VStr (s : string)
| VList (l : list value)
| VDict (d : list (string * value)).

Definition dict := list (string * value).

(** [bool(v)]: the truth value Python's [if], [not] and [or] test. *)
Definition truthy (v : value) : bool :=
  match v with
  | VNone => false
  | VBool b => b
  | VInt z => negb (Z.eqb z 0)
  | VFloat (S754_zero _) => false
  | VFloat _ => true
  | VStr s => negb (String.eqb s "")
  | VList l => match l with [] => false | _ => true end
  | VDict d => match d with [] => false | _ => true end
  end.

(** [a or b] *)
Definition or_ (a b : value) : value := if truthy a then a else b.

(** Key lookup; [None] when the key is not in the dict. *)
Fixpoint lookup (d : dict) (k : string) : option value :=
  match d with
  | [] => None
  | (k', v) :: d' => if String.eqb k' k then Some v else lookup d' k
  end.

(** [d.get(k)] *)
Definition get (d : dict) (k : string) : value :=
  match lookup d k with Some v => v | None => VNone end.

(** [d.get(k, default)] *)
Definition get_or (d : dict) (k : string) (default : value) : value :=
  match lookup d k with Some v => v | None => default end.

(** [d[k] = v]: an existing key keeps its place. *)
Fixpoint setitem (d : dict) (k : string) (v : value) : dict :=
  match d with
  | [] => [(k, v)]
  | (k', v') :: d' =>
      if String.eqb k' k then (k, v) :: d' else (k', v') :: setitem d' k v
  end.

(** [c.isspace()] for a code point below 256. *)
Definition isspace (c : ascii) : bool :=
  let n := nat_of_ascii c in
  (((9 <=? n) && (n <=? 13)) || ((28 <=? n) && (n <=? 32))
   || (n =? 133) || (n =? 160))%nat.

Fixpoint lstrip (s : string) : string :=
  match s with
  | EmptyString => EmptyString
  | String c s' => if isspace c then lstrip s' else s
  end.

Fixpoint rstrip (s : string) : string :=
  match s with
  | EmptyString => EmptyString
  | String c s' =>
      match rstrip s' with
      | EmptyString => if isspace c then EmptyString else String c EmptyString
      | r => String c r
      end
  end.

(** [s.strip()] *)
Definition strip (s : string) : string := rstrip (lstrip s).

(** [bool(s)] for a [str]. *)
Definition nonempty (s : string) : bool := negb (String.eqb s "").

(** A string that is empty or made of whitespace only. *)
Fixpoint all_space (s : string) : bool :=
  match s with
  | EmptyString => true
  | String c s' => isspace c && all_space s'
  end.

(** The line boundaries of [str.splitlines] below code point 256:
    LF, VT, FF, CR, FS, GS, RS and NEL. *)
Definition is_linebreak (c : ascii) : bool :=
  let n := nat_of_ascii c in
  (((10 <=? n) && (n <=? 13)) || ((28 <=? n) && (n <=? 30))
   || (n =? 133))%nat.

Definition is_cr (c : ascii) : bool := (nat_of_ascii c =? 13)%nat.
Definition is_lf (c : ascii) : bool := (nat_of_ascii c =? 10)%nat.

(** [cur] is the line read so far. CR LF counts as one boundary and a
    final boundary opens no empty last line. *)
Fixpoint splitlines_from (cur : string) (s : string) : list string :=
  match s with
  | EmptyString => if nonempty cur then [cur] else []
  | String c s' =>
      if is_linebreak c then
        match s' with
        | String c' s'' =>
            if is_cr c && is_lf c' then cur :: splitlines_from "" s''
            else cur :: splitlines_from "" s'
        | EmptyString => [cur]
        end
      else splitlines_from (cur ++ String c "") s'
  end.

(** [s.splitlines()] *)
Definition splitlines (s : string) : list string := splitlines_from "" s.

(** [s.endswith(suffix)] *)
Definition endswith (s suffix : string) : bool :=
  (String.length suffix <=? String.length s)%nat
  && String.eqb
       (substring (String.length s - String.length suffix)
                  (String.length suffix) s)
       suffix.

(** The strings of a list whose elements are all [str]; [None] when
    some element is not ([sep.join] raises [TypeError] then). *)
Fixpoint strs (l : list value) : option (list string) :=
  match l with
  | [] => Some []
  | VStr s :: l' =>
      match strs l' with Some ss => Some (s :: ss) | None => None end
  | _ :: _ => None
  end.

(** [sep.join(ss)] *)
Definition join (sep : string) (ss : list string) : string :=
  String.concat sep ss.

End Py.

(* ================================================================== *)
(** * scripts/process_data.py: the record normalizer *)
(* ================================================================== *)

Module ProcessData.
Import Py.

(** A llama_index [Document]: its text and its metadata dict. *)
Record Document : Type := mkDocument { text : string; metadata : dict }.

(** The exceptions the function can meet. All are subclasses of
    [Exception]; only [JSONDecodeError] has a handler of its own.
    [json.loads] raises [JSONDecodeError] on a text that is not JSON,
    and can raise [ValueError] (an integer of too many digits) or
    [RecursionError] (a nesting too deep); [open] and [f.read] raise
    [OSError] or [UnicodeDecodeError]; the reader of the course
    directory raises [ValueError] when it finds no file. *)
Inductive exn : Type :=
| JSONDecodeError
| AttributeError
| TypeError
| ValidationError
| ValueError
| RecursionError
| UnicodeDecodeError
| OSError.

(** One constructor per [print] of [load_documents_with_metadata], in
    the order of the source; numbers and file names are the values the
    f-string shows. *)
Inductive event : Type :=
| LoadingCourseContent
| LoadedCourseContent (n : nat)
| CourseContentNotFound
| LoadingDiscoursePosts
| WarnEmptyLine (line_no : nat) (filename : string)
| ErrorPostOnLine (line_no : nat) (filename : string) (e : exn)
| AttemptArray (filename : string)
| WarnEmptyItem (item_no : nat) (filename : string)
| LoadedFromArray (n : nat)
| ErrorNotArray (filename : string)
| ErrorParsing (filename : string)
| ErrorFile (filename : string) (e : exn)
| DiscoursePostsNotFound
| LoadedTotal (n : nat).

(** The list the function fills and what it has printed so far. *)
Record state : Type := mkState {
  all_documents : list Document;
  stdout : list event
}.

Inductive outcome (A : Type) : Type :=
| Ret (a : A)
| Raise (e : exn).
Arguments Ret {A} a.
Arguments Raise {A} e.

(** A computation reads and changes the state and returns or raises;
    what it appended and printed before a raise stays. *)
Definition M (A : Type) : Type := state -> outcome A * state.

Definition ret {A} (a : A) : M A := fun st => (Ret a, st).

Definition bind {A B} (m : M A) (k : A -> M B) : M B :=
  fun st =>
    match m st with
    | (Ret a, st') => k a st'
    | (Raise e, st') => (Raise e, st')
    end.

Definition raise {A} (e : exn) : M A := fun st => (Raise e, st).

(** [try: m except ... as e: handler e] *)
Definition try_except {A} (m : M A) (handler : exn -> M A) : M A :=
  fun st =>
    match m st with
    | (Ret a, st') => (Ret a, st')
    | (Raise e, st') => handler e st'
    end.

Definition lift {A} (r : exn + A) : M A :=
  match r with inl e => raise e | inr a => ret a end.

(** [print(...)] *)
Definition print (ev : event) : M unit :=
  fun st => (Ret tt, mkState (all_documents st) (stdout st ++ [ev])).

(** [all_documents.append(doc)] *)
Definition append (doc : Document) : M unit :=
  fun st => (Ret tt, mkState (all_documents st ++ [doc]) (stdout st)).

Definition get_documents : M (list Document) :=
  fun st => (Ret (all_documents st), st).

Declare Scope py_scope.
Delimit Scope py_scope with py.
Notation "x <- m ;; k" := (bind m (fun x => k))
  (at level 61, m at next level, right associativity) : py_scope.
Notation "m ;; k" := (bind m (fun _ => k))
  (at level 61, right associativity) : py_scope.
Local Open Scope py_scope.

(** The directory tree under [data_dir] as the function sees it:
    [None] for a directory that does not exist; for [course_content]
    what building the reader and [reader.load_data()] do, return
    documents or raise; for [discourse_posts] the files in
    [os.listdir] order, each with what [open] and [f.read()] do,
    return the text or raise. *)
Record data_dir : Type := mkDataDir {
  course_content : option (exn + list Document);
  discourse_posts : option (list (string * (exn + string)))
}.

Section Loader.

(** [json.loads]: the value decoded, or the exception raised. *)
Variable json_loads : string -> exn + value.

(** The text a [Document] built with [text=v] holds; [None] when the
    constructor rejects [v]. *)
Variable Document_text : value -> option string.

Definition loads (s : string) : M value := lift (json_loads s).

(** [", ".join(tags_value) if isinstance(tags_value, list)
     else (tags_value if tags_value is not None else '')]
    (lines 85 and 126). *)
Definition processed_tags (tags_value : value) : exn + value :=
  match tags_value with
  | VList l =>
      match strs l with
      | Some ss => inr (VStr (join ", " ss))
      | None => inl TypeError
      end
  | VNone => inr (VStr "")
  | v => inr v
  end.

(** [data.get('content') or data.get('cooked', '')] (lines 90 and 131). *)
Definition resolved_text (data : dict) : value :=
  or_ (get data "content") (get_or data "cooked" (VStr "")).

(** Lines 81-101, and again 123-142: from a decoded record to its
    [Document]. [data.get] raises [AttributeError] on anything but a
    dict. *)
Definition post_document (data : value) : exn + Document :=
  match data with
  | VDict d =>
      match processed_tags (get d "tags") with
      | inl e => inl e
      | inr tags =>
          match Document_text (resolved_text d) with
          | None => inl ValidationError
          | Some t =>
              inr (mkDocument t
                     [("url", get_or d "url" (VStr ""));
                      ("topic_title", get_or d "topic_title" (VStr ""));
                      ("post_id", get_or d "post_id" (VStr ""));
                      ("post_number", get_or d "post_number" (VStr ""));
                      ("author", get_or d "author" (VStr ""));
                      ("created_at", get_or d "created_at" (VStr ""));
                      ("source_type", VStr "discourse_post");
                      ("tags", tags)])
          end
      end
  | _ => inl AttributeError
  end.

(** Lines 81-105 and 123-146: build the document, keep it when its
    stripped text is not empty, print [warning] otherwise. *)
Definition add_post (data : value) (warning : event) : M unit :=
  doc <- lift (post_document data) ;;
  if nonempty (strip (text doc)) then append doc else print warning.

(** Lines 73-114, the loop over [enumerate(file_content.splitlines())].
    It returns the final [is_jsonl]; [break] returns at once.
    [json.loads(line)] is the first statement of the [try] block: when
    it raises [JSONDecodeError] the first handler breaks or re-raises;
    when it raises anything else the second handler prints the error
    of the line and the loop goes on, [is_jsonl] and [lines_processed]
    being what they were. Once it has returned, [is_jsonl] is [True]
    and [lines_processed] is one more, so a [JSONDecodeError] from the
    rest of the block would be re-raised by the first handler. *)
Fixpoint jsonl_loop (filename : string) (lines : list string)
    (line_num lines_processed : nat) (is_jsonl : bool) : M bool :=
  match lines with
  | [] => ret is_jsonl
  | line :: rest =>
      if nonempty (strip line) then
        match json_loads line with
        | inr data =>
            try_except (add_post data (WarnEmptyLine (line_num + 1) filename))
              (fun e =>
                 match e with
                 | JSONDecodeError => raise JSONDecodeError
                 | _ => print (ErrorPostOnLine (line_num + 1) filename e)
                 end) ;;
            jsonl_loop filename rest (S line_num) (S lines_processed) true
        | inl JSONDecodeError =>
            if ((lines_processed =? 0) && (line_num =? 0))%nat
            then ret false
            else raise JSONDecodeError
        | inl e =>
            print (ErrorPostOnLine (line_num + 1) filename e) ;;
            jsonl_loop filename rest (S line_num) lines_processed is_jsonl
        end
      else jsonl_loop filename rest (S line_num) lines_processed is_jsonl
  end.

(** Lines 121-146, the loop over [enumerate(json_array)]. *)
Fixpoint array_loop (filename : string) (items : list value)
    (item_num : nat) : M unit :=
  match items with
  | [] => ret tt
  | data :: rest =>
      add_post data (WarnEmptyItem (item_num + 1) filename) ;;
      array_loop filename rest (S item_num)
  end.

(** [d.metadata.get('source_type') == 'discourse_post'] *)
Definition is_discourse_post (d : Document) : bool :=
  match get (metadata d) "source_type" with
  | VStr s => String.eqb s "discourse_post"
  | _ => false
  end.

(** Lines 70-149, the body of the outer [try]. *)
Definition file_body (filename file_content : string) : M unit :=
  is_jsonl <- jsonl_loop filename (splitlines file_content) 0 0 false ;;
  if negb is_jsonl then
    print (AttemptArray filename) ;;
    json_array <- loads file_content ;;
    match json_array with
    | VList items =>
        array_loop filename items 0 ;;
        docs <- get_documents ;;
        print (LoadedFromArray (length (filter is_discourse_post docs)))
    | _ => print (ErrorNotArray filename)
    end
  else ret tt.

(** Lines 69-154: the outer [try] with its two handlers. *)
Definition load_file (filename file_content : string) : M unit :=
  try_except (file_body filename file_content)
    (fun e =>
       match e with
       | JSONDecodeError => print (ErrorParsing filename)
       | _ => print (ErrorFile filename e)
       end).

(** Lines 64-154, the loop over [os.listdir(discourse_posts_path)].
    [open] and [f.read()] come before the [try]: what they raise
    leaves the loop and the function. *)
Fixpoint load_files (files : list (string * (exn + string))) : M unit :=
  match files with
  | [] => ret tt
  | (filename, opened) :: rest =>
      (if endswith filename ".jsonl" || endswith filename ".json"
       then file_content <- lift opened ;;
            load_file filename file_content
       else ret tt) ;;
      load_files rest
  end.

(** Lines 49-54, the loop over [course_docs]. *)
Fixpoint add_course_docs (course_docs : list Document) : M unit :=
  match course_docs with
  | [] => ret tt
  | doc :: rest =>
      append (mkDocument (text doc)
                (setitem (metadata doc) "source_type"
                         (VStr "course_content"))) ;;
      add_course_docs rest
  end.

Definition load_documents_with_metadata (dir : data_dir)
  : M (list Document) :=
  match course_content dir with
  | Some reader =>
      print LoadingCourseContent ;;
      course_docs <- lift reader ;;
      add_course_docs course_docs ;;
      print (LoadedCourseContent (length course_docs))
  | None => print CourseContentNotFound
  end ;;
  match discourse_posts dir with
  | Some files => print LoadingDiscoursePosts ;; load_files files
  | None => print DiscoursePostsNotFound
  end ;;
  docs <- get_documents ;;
  print (LoadedTotal (length docs)) ;;
  ret docs.

(** The function starts with [all_documents = []]. *)
Definition initial : state := mkState [] [].

End Loader.

End ProcessData.

(* ================================================================== *)
(** * A decoder for JSON texts *)
(* ================================================================== *)

(** [decode] follows Python's [json.loads] with its defaults: the
    scanner of [json/scanner.py] and the object, array and string
    readers of [json/decoder.py]. It instantiates the [json_loads]
    parameter in the concrete runs below. A [\uXXXX] escape above
    [\u00FF] names a character outside this model of [str]; [decode]
    answers [None] there. *)
Module Json.
Import Py.

Definition code (c : ascii) : nat := nat_of_ascii c.

(** [WHITESPACE]: space, tab, line feed and carriage return. *)
Definition is_ws (c : ascii) : bool :=
  let n := code c in ((n =? 32) || (n =? 9) || (n =? 10) || (n =? 13))%nat.

Fixpoint skip_ws (s : string) : string :=
  match s with
  | String c s' => if is_ws c then skip_ws s' else s
  | EmptyString => EmptyString
  end.

Definition is_digit (c : ascii) : bool :=
  let n := code c in ((48 <=? n) && (n <=? 57))%nat.

Definition digit_val (c : ascii) : Z := Z.of_nat (code c - 48).

Definition hex_val (c : ascii) : option nat :=
  let n := code c in
  if ((48 <=? n) && (n <=? 57))%nat then Some (n - 48)
  else if ((65 <=? n) && (n <=? 70))%nat then Some (n - 55)
  else if ((97 <=? n) && (n <=? 102))%nat then Some (n - 87)
  else None.

(** The digits at the head of [s]: their value, their number, the rest. *)
Fixpoint digits (s : string) (acc : Z) (n : nat) : Z * nat * string :=
  match s with
  | String c s' =>
      if is_digit c then digits s' (10 * acc + digit_val c)%Z (S n)
      else (acc, n, s)
  | EmptyString => (acc, n, s)
  end.

(** [s.startswith(p)], with what follows [p]. *)
Fixpoint strip_prefix (p s : string) : option string :=
  match p, s with
  | EmptyString, _ => Some s
  | String a p', String b s' =>
      if Ascii.eqb a b then strip_prefix p' s' else None
  | String _ _, EmptyString => None
  end.

(** [float(text)] for a decimal [m * 10^e10], rounded to the nearest
    binary64, ties to even. *)
Definition to_float (neg : bool) (m : Z) (e10 : Z) : spec_float :=
  match m with
  | Zpos p =>
      if (0 <=? e10)%Z
      then binary_round 53 1024 neg (Z.to_pos (m * 10 ^ e10)) 0
      else
        let '(q, e, l) :=
          SFdiv_core_binary 53 1024 m 0 (10 ^ (- e10)) 0 in
        binary_round_aux 53 1024 neg q e l
  | _ => S754_zero neg
  end.

(** [NUMBER_RE]: an optional minus sign, then 0 or a digit from 1 to 9
    with more digits, then optionally a point with digits, then
    optionally e or E with a signed exponent. A part that does not
    match is left in the text. The result is an [int] without fraction
    and exponent, a [float] otherwise. *)
Definition number (s : string) : option (value * string) :=
  let (neg, s0) :=
    match s with
    | String "-"%char s' => (true, s')
    | _ => (false, s)
    end in
  let int_part :=
    match s0 with
    | String "0"%char s' => Some (0%Z, s')
    | String c _ =>
        if is_digit c then let '(i, _, r) := digits s0 0 0 in Some (i, r)
        else None
    | EmptyString => None
    end in
  match int_part with
  | None => None
  | Some (i, s1) =>
      let '(m, k, s2, has_frac) :=
        match s1 with
        | String "."%char s' =>
            match digits s' i 0 with
            | (_, O, _) => (i, O, s1, false)
            | (m, k, r) => (m, k, r, true)
            end
        | _ => (i, O, s1, false)
        end in
      let '(e, s3, has_exp) :=
        match s2 with
        | String c s' =>
            if ((code c =? 101) || (code c =? 69))%nat then
              let '(eneg, s'') :=
                match s' with
                | String "-"%char r => (true, r)
                | String "+"%char r => (false, r)
                | _ => (false, s')
                end in
              match digits s'' 0 0 with
              | (_, O, _) => (0%Z, s2, false)
              | (e, _, r) => ((if eneg then - e else e)%Z, r, true)
              end
            else (0%Z, s2, false)
        | EmptyString => (0%Z, s2, false)
        end in
      if has_frac || has_exp
      then Some (VFloat (to_float neg m (e - Z.of_nat k)), s3)
      else Some (VInt (if neg then - i else i), s3)
  end.

(** [py_scanstring] with [strict=True], after the opening quote. *)
Fixpoint scanstring (s : string) (acc : string) : option (string * string) :=
  match s with
  | EmptyString => None
  | String c s' =>
      if (code c =? 34)%nat then Some (acc, s')
      else if (code c <? 32)%nat then None
      else if (code c =? 92)%nat then
        match s' with
        | String e r =>
            let simple (x : nat) :=
              scanstring r (acc ++ String (ascii_of_nat x) "") in
            match code e with
            | 34 => simple 34
            | 92 => simple 92
            | 47 => simple 47
            | 98 => simple 8
            | 102 => simple 12
            | 110 => simple 10
            | 114 => simple 13
            | 116 => simple 9
            | 117 =>
                match r with
                | String h1 (String h2 (String h3 (String h4 r'))) =>
                    match hex_val h1, hex_val h2, hex_val h3, hex_val h4 with
                    | Some 0, Some 0, Some a, Some b =>
                        scanstring r'
                          (acc ++ String (ascii_of_nat (16 * a + b)) "")
                    | _, _, _, _ => None
                    end
                | _ => None
                end
            | _ => None
            end
        | EmptyString => None
        end
      else scanstring s' (acc ++ String c "")
  end.

(** [scan_once], [JSONArray] and [JSONObject]; [fuel] bounds the number
    of calls, at most two for each value of the text. A repeated key
    keeps its first place and takes the last value, as [dict(pairs)]. *)
Fixpoint scan_once (fuel : nat) (s : string) : option (value * string) :=
  match fuel with
  | O => None
  | S fuel' =>
      match s with
      | EmptyString => None
      | String c s' =>
          match code c with
          | 34 =>
              match scanstring s' "" with
              | Some (str, r) => Some (VStr str, r)
              | None => None
              end
          | 123 =>
              match skip_ws s' with
              | String c' r =>
                  if (code c' =? 125)%nat then Some (VDict [], r)
                  else if (code c' =? 34)%nat then members fuel' r []
                  else None
              | EmptyString => None
              end
          | 91 =>
              match skip_ws s' with
              | String "]"%char r => Some (VList [], r)
              | r => elements fuel' r []
              end
          | _ =>
              match strip_prefix "null" s, strip_prefix "true" s,
                    strip_prefix "false" s with
              | Some r, _, _ => Some (VNone, r)
              | _, Some r, _ => Some (VBool true, r)
              | _, _, Some r => Some (VBool false, r)
              | _, _, _ =>
                  match number s with
                  | Some res => Some res
                  | None =>
                      match strip_prefix "NaN" s, strip_prefix "Infinity" s,
                            strip_prefix "-Infinity" s with
                      | Some r, _, _ => Some (VFloat S754_nan, r)
                      | _, Some r, _ => Some (VFloat (S754_infinity false), r)
                      | _, _, Some r => Some (VFloat (S754_infinity true), r)
                      | _, _, _ => None
                      end
                  end
              end
          end
      end
  end

with elements (fuel : nat) (s : string) (acc : list value)
  : option (value * string) :=
  match fuel with
  | O => None
  | S fuel' =>
      match scan_once fuel' s with
      | None => None
      | Some (v, r) =>
          match skip_ws r with
          | String "]"%char r' => Some (VList (rev (v :: acc)), r')
          | String ","%char r' => elements fuel' (skip_ws r') (v :: acc)
          | _ => None
          end
      end
  end

with members (fuel : nat) (s : string) (acc : dict)
  : option (value * string) :=
  match fuel with
  | O => None
  | S fuel' =>
      match scanstring s "" with
      | None => None
      | Some (key, r) =>
          match skip_ws r with
          | String ":"%char r1 =>
              match scan_once fuel' (skip_ws r1) with
              | None => None
              | Some (v, r2) =>
                  let acc' := setitem acc key v in
                  match skip_ws r2 with
                  | String "}"%char r3 => Some (VDict acc', r3)
                  | String ","%char r3 =>
                      match skip_ws r3 with
                      | String c' r4 =>
                          if (code c' =? 34)%nat then members fuel' r4 acc'
                          else None
                      | EmptyString => None
                      end
                  | _ => None
                  end
              end
          | _ => None
          end
      end
  end.

(** [JSONDecoder.decode]: one value between optional whitespace, and
    nothing after it. *)
Definition decode (s : string) : option value :=
  match scan_once (2 * String.length s + 2) (skip_ws s) with
  | Some (v, r) =>
      match skip_ws r with
      | EmptyString => Some v
      | _ => None
      end
  | None => None
  end.

(** [decode] as a [json.loads], [JSONDecodeError] where it has no
    value. *)
Definition loads (s : string) : ProcessData.exn + value :=
  match decode s with
  | Some v => inr v
  | None => inl ProcessData.JSONDecodeError
  end.

End Json.

(* ================================================================== *)
(** * main.py: the global query engine and the POST / handler *)
(* ================================================================== *)

Module Main.
Import Py.

(** The pydantic models of lines 53-64. *)
Record QueryRequest : Type := mkQueryRequest {
  question : string;
  image : option string
}.

Record SourceLink : Type := mkSourceLink { url : string; title : string }.

Record QueryResponse : Type := mkQueryResponse {
  answer : string;
  links : list SourceLink
}.

(** What the handler reads of a retrieved node and of the engine's
    response: [node.metadata], [response.source_nodes], [str(response)]. *)
Record Node : Type := mkNode { node_metadata : dict }.

Record Response : Type := mkResponse {
  response_str : string;
  source_nodes : list Node
}.

(** The exceptions of the [try] block: whatever [query_engine.query]
    raises, and pydantic's rejection of a [SourceLink] field. *)
Inductive exn : Type :=
| QueryError (message : string)
| ValidationError.

(** [query_engine.query]: retrieval and synthesis in one call. *)
Definition Engine : Type := string -> exn + Response.

(** The three [detail] messages: line 143, line 147, and line 170 with
    the exception it shows. *)
Inductive detail : Type :=
| EngineNotInitialized
| QuestionEmpty
| ProcessingError (e : exn).

Record HTTPException : Type := mkHTTPException {
  status_code : nat;
  http_detail : detail
}.

(** What the handler and the startup hook do besides returning. *)
Inductive effect : Type :=
| Queried (q : string)
| PrintedQueryError (e : exn)
| PrintedInitialized
| PrintedStartupFailed.

Section Handler.

(** pydantic's validation of a field annotated [str]: the string the
    model stores, [None] when it raises. *)
Variable str_field : value -> option string.

(** Lines 157-164, one turn of the loop: the link a node contributes,
    if any. *)
Definition resolve_title (metadata : dict) : value :=
  or_ (or_ (or_ (or_ (get metadata "title") (get metadata "topic_title"))
                (get metadata "text"))
           (get metadata "url"))
      (VStr "No Title Available").

Definition source_link (metadata : dict) : exn + option SourceLink :=
  let url := get metadata "url" in
  let title := resolve_title metadata in
  if truthy url then
    match str_field url, str_field title with
    | Some u, Some t => inr (Some (mkSourceLink u t))
    | _, _ => inl ValidationError
    end
  else inr None.

(** Lines 155-164, the loop over [source_nodes]; [links] is the list
    built so far. *)
Fixpoint build_links (source_nodes : list Node) (links : list SourceLink)
  : exn + list SourceLink :=
  match source_nodes with
  | [] => inr links
  | node :: rest =>
      match source_link (node_metadata node) with
      | inl e => inl e
      | inr (Some link) => build_links rest (links ++ [link])
      | inr None => build_links rest links
      end
  end.

(** Lines 138-170. [query_engine] is the global of line 69: [None]
    until [startup_event] has stored an engine. *)
Definition query_ta (query_engine : option Engine) (request : QueryRequest)
  : (HTTPException + QueryResponse) * list effect :=
  match query_engine with
  | None => (inl (mkHTTPException 503 EngineNotInitialized), [])
  | Some engine =>
      let question := strip (question request) in
      if negb (nonempty question)
      then (inl (mkHTTPException 400 QuestionEmpty), [])
      else
        match engine question with
        | inl e =>
            (inl (mkHTTPException 500 (ProcessingError e)),
             [Queried question; PrintedQueryError e])
        | inr response =>
            match build_links (source_nodes response) [] with
            | inl e =>
                (inl (mkHTTPException 500 (ProcessingError e)),
                 [Queried question; PrintedQueryError e])
            | inr links =>
                (inr (mkQueryResponse (response_str response) links),
                 [Queried question])
            end
        end
  end.

End Handler.

(** Lines 119-132. [initialized] is what [initialize_query_engine()]
    does: return an engine or raise. The global keeps its [None] when
    it raises. *)
Definition startup_event (initialized : exn + Engine)
  : option Engine * list effect :=
  match initialized with
  | inr engine => (Some engine, [PrintedInitialized])
  | inl _ => (None, [PrintedStartupFailed])
  end.

(** Line 69: [query_engine = None]. *)
Definition query_engine_at_import : option Engine := None.

End Main.

(* ================================================================== *)
(** * The properties as the specification words them, and sample inputs *)
(* ================================================================== *)

Module Words.
Import Py.

(** A [str] field that keeps a string and rejects everything else. *)
Definition strict_str (v : value) : option string :=
  match v with
  | VStr s => Some s
  | _ => None
  end.


(** The first candidate that is present and not empty, [default] when
    there is none. *)
Fixpoint first_nonempty (candidates : list value) (default : value)
  : value :=
  match candidates with
  | [] => default
  | v :: rest => if truthy v then v else first_nonempty rest default
  end.

Definition title_if_nonempty (metadata : dict) : value :=
  first_nonempty
    [get metadata "title"; get metadata "topic_title";
     get metadata "text"; get metadata "url"]
    (VStr "No Title Available").

(** The URLs of the retrieved segments that have one, in retrieval
    order. *)
Definition urls_in_order (nodes : list Main.Node) : list value :=
  filter truthy (map (fun n => get (Main.node_metadata n) "url") nodes).


(** A line that [if line.strip()] skips. *)
Definition blank (line : string) : bool := negb (nonempty (strip line)).

(** "The first non-empty line fails to parse as JSON": [json.loads]
    raises on it. *)
Definition first_nonblank_fails
    (json_loads : string -> ProcessData.exn + value)
    (lines : list string) : bool :=
  match find (fun l => negb (blank l)) lines with
  | Some l => match json_loads l with inl _ => true | inr _ => false end
  | None => false
  end.

(** What the loop of lines 73-114 tests, from the line of number
    [line_num] on and while no line has decoded: a blank line is
    passed over, and so is a line on which [json.loads] raises
    anything but [JSONDecodeError]; a line that decodes settles that
    the file is read line by line; [JSONDecodeError] gives the
    fallback on the first line of the file and is re-raised on any
    other; at the end of the lines the fallback is taken. *)
Fixpoint falls_back_from (json_loads : string -> ProcessData.exn + value)
    (line_num : nat) (lines : list string) : bool :=
  match lines with
  | [] => true
  | l :: rest =>
      if blank l then falls_back_from json_loads (S line_num) rest
      else match json_loads l with
           | inr _ => false
           | inl ProcessData.JSONDecodeError => (line_num =? 0)%nat
           | inl _ => falls_back_from json_loads (S line_num) rest
           end
  end.

Definition falls_back (json_loads : string -> ProcessData.exn + value)
    (lines : list string) : bool :=
  falls_back_from json_loads 0 lines.

(** The errors of single lines printed on the way to the fallback:
    one for each line on which [json.loads] raised something other
    than [JSONDecodeError]. *)
Fixpoint undecoded_errors (json_loads : string -> ProcessData.exn + value)
    (filename : string) (line_num : nat) (lines : list string)
  : list ProcessData.event :=
  match lines with
  | [] => []
  | l :: rest =>
      if blank l then undecoded_errors json_loads filename (S line_num) rest
      else match json_loads l with
           | inr _ => []
           | inl ProcessData.JSONDecodeError => []
           | inl e =>
               ProcessData.ErrorPostOnLine (line_num + 1) filename e
               :: undecoded_errors json_loads filename (S line_num) rest
           end
  end.

(** [st] with [docs] appended and [evs] printed. *)
Definition extend (st : ProcessData.state)
    (docs : list ProcessData.Document) (evs : list ProcessData.event)
  : ProcessData.state :=
  ProcessData.mkState (ProcessData.all_documents st ++ docs)
                      (ProcessData.stdout st ++ evs).

Definition nonblank_text (d : ProcessData.Document) : Prop :=
  all_space (ProcessData.text d) = false.

(** A course document as the loop of lines 49-54 appends it. *)
Definition as_course_content (doc : ProcessData.Document)
  : ProcessData.Document :=
  ProcessData.mkDocument (ProcessData.text doc)
    (setitem (ProcessData.metadata doc) "source_type"
             (VStr "course_content")).

(** The documents read from [course_content], none when the directory
    does not exist or the reader raised. *)
Definition course_docs_of (dir : ProcessData.data_dir)
  : list ProcessData.Document :=
  match ProcessData.course_content dir with
  | Some (inr course_docs) => course_docs
  | _ => []
  end.

(** [m] only appends: documents that satisfy [Pd], events that
    satisfy [Pe]. *)
Definition grows {A : Type} (m : ProcessData.M A)
    (Pd : ProcessData.Document -> Prop) (Pe : ProcessData.event -> Prop)
  : Prop :=
  forall st, exists docs evs,
    snd (m st) = extend st docs evs /\ Forall Pd docs /\ Forall Pe evs.

(** The events of the loop over lines. *)
Definition line_event (ev : ProcessData.event) : Prop :=
  match ev with
  | ProcessData.WarnEmptyLine _ _ => True
  | ProcessData.ErrorPostOnLine _ _ _ => True
  | _ => False
  end.

(** The state after the turn of the loop for a line, number
    [line_num] from 0, that decoded to [data]: its document appended,
    or the warning or the error printed. *)
Definition after_line (Document_text : value -> option string)
    (filename : string) (line_num : nat) (data : value)
    (st : ProcessData.state) : ProcessData.state :=
  match ProcessData.post_document Document_text data with
  | inl e =>
      snd (ProcessData.print
             (ProcessData.ErrorPostOnLine (line_num + 1) filename e) st)
  | inr doc =>
      if nonempty (strip (ProcessData.text doc))
      then snd (ProcessData.append doc st)
      else snd (ProcessData.print
                  (ProcessData.WarnEmptyLine (line_num + 1) filename) st)
  end.

(** The lines of [lines] that are not blank all decode. *)
Definition all_decode (json_loads : string -> ProcessData.exn + value)
    (lines : list string) : bool :=
  forallb
    (fun l =>
       blank l || match json_loads l with inr _ => true | inl _ => false end)
    lines.

(** No line of [lines] is a JSON syntax error: each is blank, or
    decodes, or makes [json.loads] raise something other than
    [JSONDecodeError]. *)
Definition no_syntax_error (json_loads : string -> ProcessData.exn + value)
    (lines : list string) : bool :=
  forallb
    (fun l =>
       blank l || match json_loads l with
                  | inl ProcessData.JSONDecodeError => false
                  | _ => true
                  end)
    lines.

(** Every file of the list that the loop opens can be read. *)
Definition all_readable
    (files : list (string * (ProcessData.exn + string))) : bool :=
  forallb
    (fun f =>
       negb (endswith (fst f) ".jsonl" || endswith (fst f) ".json")
       || match snd f with inr _ => true | inl _ => false end)
    files.

End Words.

Module Samples.
Import Py.
Local Open Scope string_scope.

Definition quote : string := String (ascii_of_nat 34) "".
Definition newline : string := String (ascii_of_nat 10) "".

(** [s] between double quotes. *)
Definition q (s : string) : string := quote ++ s ++ quote.

(** The one-line record with the given [content]. *)
Definition record (content : string) : string :=
  "{" ++ q "content" ++ ": " ++ q content ++ "}".

(** A line-delimited file whose second line is not JSON. *)
Definition broken_jsonl : string * string :=
  ("posts.jsonl",
   record "a" ++ newline ++ "not json" ++ newline ++ record "b").

(** The same file without its second line. *)
Definition sound_jsonl : string * string :=
  ("posts.jsonl", record "a" ++ newline ++ record "b").

(** A line whose record has a tag that is not a string. *)
Definition bad_tags_jsonl : string * string :=
  ("tags.jsonl",
   "{" ++ q "content" ++ ": " ++ q "a" ++ ", " ++ q "tags" ++ ": [1]}"
   ++ newline ++ record "b").

(** A JSON array printed over several lines, after an empty line. *)
Definition array_after_blank : string * string :=
  ("posts.json",
   newline ++ "[" ++ newline ++ record "a" ++ newline ++ "]").

(** The same array without the leading empty line. *)
Definition array_file : string * string :=
  ("posts.json", "[" ++ newline ++ record "a" ++ newline ++ "]").

(** A JSON object printed over several lines. *)
Definition object_file : string * string :=
  ("post.json", "{" ++ newline ++ q "content" ++ ": " ++ q "a"
                ++ newline ++ "}").

Definition empty_file : string * string := ("empty.json", "").

(** A file whose text was read. *)
Definition readable (f : string * string)
  : string * (ProcessData.exn + string) :=
  (fst f, inr (snd f)).

(** A file that is not UTF-8. *)
Definition undecodable : string * (ProcessData.exn + string) :=
  ("latin1.jsonl", inl ProcessData.UnicodeDecodeError).

(** A course page that is empty. *)
Definition empty_page : ProcessData.Document :=
  ProcessData.mkDocument "" [("title", VStr "Draft")].

(** A [json.loads] that decodes as [Json.loads] does, except on the
    line [big], where it raises [ValueError]. *)
Definition loads_but (big : string) (s : string)
  : ProcessData.exn + value :=
  if String.eqb s big then inl ProcessData.ValueError else Json.loads s.

(** A JSON array on one line. *)
Definition compact_array : string * string :=
  ("compact.json", "[" ++ record "a" ++ "]").

(** An array whose second item is a number. *)
Definition mixed_array : string * string :=
  ("mixed.json",
   "[" ++ newline ++ record "a" ++ "," ++ newline ++ "7," ++ newline
   ++ record "b" ++ newline ++ "]").

(** A JSON array over several lines whose second item has a text of
    spaces only. *)
Definition blank_item_array : string * string :=
  ("posts.json",
   "[" ++ newline ++ record "a" ++ "," ++ newline
   ++ "{" ++ q "content" ++ ": " ++ q "" ++ ", " ++ q "cooked" ++ ": "
   ++ q "   " ++ "}" ++ newline ++ "]").



(** [{"content": "", "cooked": "   "}] *)
Definition whitespace_only : dict :=
  [("content", VStr ""); ("cooked", VStr "   ")].

(** The metadata the normalizer stores for the record
    [{"content": "x", "url": "http://x"}]. *)
Definition untitled_post : dict :=
  [("url", VStr "http://x"); ("topic_title", VStr "");
   ("post_id", VStr ""); ("post_number", VStr ""); ("author", VStr "");
   ("created_at", VStr ""); ("source_type", VStr "discourse_post");
   ("tags", VStr "")].


(** A segment whose URL is a number. *)
Definition numbered_node : Main.Node :=
  Main.mkNode [("url", VInt 5); ("title", VStr "Five")].

(** An engine that retrieves a good segment and that one. *)
Definition one_bad_segment : Main.Engine :=
  fun _ =>
    inr (Main.mkResponse "Use pandas."
           [Main.mkNode [("url", VStr "http://a"); ("title", VStr "A")];
            numbered_node]).

(** An engine that always fails. *)
Definition failing : Main.Engine :=
  fun _ => inl (Main.QueryError "timeout").

(** The record of the end-to-end scenario. *)
Definition pandas_record : dict :=
  [("content", VStr "Use pandas for X."); ("url", VStr "http://a");
   ("topic_title", VStr "Pandas Basics");
   ("tags", VList [VStr "python"; VStr "data"])].

Definition pandas_node : Main.Node :=
  Main.mkNode [("url", VStr "http://a"); ("topic_title", VStr "Pandas Basics")].

(** An engine that retrieves two segments of the same post. *)
Definition two_segments : Main.Engine :=
  fun _ => inr (Main.mkResponse "Use pandas." [pandas_node; pandas_node]).

End Samples.

(* ================================================================== *)
(** * scripts/virtual_ta_app.py: the command-line session *)
(* ================================================================== *)

Module VirtualTaApp.
Import Py.

(** [c.lower()] for a code point below 256: the letters A to Z and the
    capital letters from 192 to 222, the multiplication sign 215
    apart. *)
Definition lower_char (c : ascii) : ascii :=
  let n := nat_of_ascii c in
  if (((65 <=? n) && (n <=? 90))
      || ((192 <=? n) && (n <=? 222) && negb (n =? 215)))%nat
  then ascii_of_nat (n + 32)
  else c.

(** [s.lower()] *)
Fixpoint lower (s : string) : string :=
  match s with
  | EmptyString => EmptyString
  | String c s' => String (lower_char c) (lower s')
  end.

(** [word in ["exit", "quit"]] *)
Definition is_exit_word (word : string) : bool :=
  String.eqb word "exit" || String.eqb word "quit".

(** One constructor per [print] of lines 77-98, [Prompt] for the text
    [input] writes, and [Queried] for the call of the engine. *)
Inductive event : Type :=
| Starting
| Ready
| Instructions
| Prompt
| Goodbye
| PleaseEnter
| Queried (q : string)
| SaysHeader
| Answer (text : string)
| QueryFailed (e : Main.exn)
| Hint.

(** How the program ends: the [break] of line 86, or an exception
    nothing catches: [EOFError] from [input] when no line is left,
    whatever [get_query_engine] raised. *)
Inductive ending : Type :=
| Exited
| EOFError
| StartupError (e : Main.exn).

(** Lines 82-98, the [while True] loop; [inputs] are the lines
    [input] will return, in order. *)
Fixpoint session (query_engine : Main.Engine) (inputs : list string)
  : ending * list event :=
  match inputs with
  | [] => (EOFError, [Prompt])
  | line :: rest =>
      let question := strip line in
      if is_exit_word (lower question) then (Exited, [Prompt; Goodbye])
      else if negb (nonempty question) then
        let (e, evs) := session query_engine rest in
        (e, Prompt :: PleaseEnter :: evs)
      else
        match query_engine question with
        | inr response =>
            let (e, evs) := session query_engine rest in
            (e, Prompt :: Queried question :: SaysHeader
                :: Answer (Main.response_str response) :: evs)
        | inl err =>
            let (e, evs) := session query_engine rest in
            (e, Prompt :: Queried question :: QueryFailed err :: Hint :: evs)
        end
  end.

(** Lines 76-98. [loaded] is what [get_query_engine()] does: return
    an engine or raise. *)
Definition main (loaded : Main.exn + Main.Engine) (inputs : list string)
  : ending * list event :=
  match loaded with
  | inl e => (StartupError e, [Starting])
  | inr query_engine =>
      let (e, evs) := session query_engine inputs in
      (e, Starting :: Ready :: Instructions :: evs)
  end.

End VirtualTaApp.

(* ================================================================== *)
(** * scripts/process_data.py: building the index *)
(* ================================================================== *)

Module Indexing.
Import Py.

(** One constructor per [print] of [create_and_persist_index] and of
    the main block, in the order of the source. *)
Inductive event : Type :=
| NoDocumentsToIndex
| SplitInto (n : nat)
| InitializedEmbedding
| InitializingChroma
| UsingCollection
| CreatingIndex
| IndexCreated
| StartingPipeline
| IndexingComplete
| NoDocumentsFound
| CheckDirectories.

Section Backend.

(** The objects of llama_index and chromadb and the exceptions their
    calls raise. *)
Variables node embedding client collection vector_store storage_context
          index exn : Type.

(** [text_splitter.get_nodes_from_documents] (line 174),
    [OpenAIEmbedding(...)] (180), [chromadb.PersistentClient] (188),
    [db.get_or_create_collection] (191), [ChromaVectorStore] (194),
    [StorageContext.from_defaults] (197), [VectorStoreIndex] (202). *)
Variable get_nodes_from_documents
  : list ProcessData.Document -> exn + list node.
Variable OpenAIEmbedding : exn + embedding.
Variable PersistentClient : exn + client.
Variable get_or_create_collection : client -> exn + collection.
Variable ChromaVectorStore : collection -> exn + vector_store.
Variable from_defaults : vector_store -> exn + storage_context.
Variable VectorStoreIndex
  : list node -> embedding -> storage_context -> exn + index.

(** What has been printed, and the value returned or the exception
    raised. *)
Definition run (A : Type) : Type := list event * (exn + A).

Definition call {A B} (r : exn + A) (k : A -> run B) : run B :=
  match r with
  | inl e => ([], inl e)
  | inr a => k a
  end.

Definition say {B} (ev : event) (k : run B) : run B :=
  (ev :: fst k, snd k).

(** Lines 162-208. [None] is the bare [return] of line 168. *)
Definition create_and_persist_index
    (documents : list ProcessData.Document) : run (option index) :=
  match documents with
  | [] => say NoDocumentsToIndex ([], inr None)
  | _ :: _ =>
      call (get_nodes_from_documents documents) (fun nodes =>
      say (SplitInto (length nodes)) (
      call OpenAIEmbedding (fun embed_model =>
      say InitializedEmbedding (
      say InitializingChroma (
      call PersistentClient (fun db =>
      call (get_or_create_collection db) (fun chroma_collection =>
      say UsingCollection (
      call (ChromaVectorStore chroma_collection) (fun store =>
      call (from_defaults store) (fun context =>
      say CreatingIndex (
      call (VectorStoreIndex nodes embed_model context) (fun built =>
      say IndexCreated ([], inr (Some built))))))))))))))
  end.

(** Lines 210-225, with [documents] the list
    [load_documents_with_metadata(DATA_DIR)] returned. *)
Definition main (documents : list ProcessData.Document) : run unit :=
  say StartingPipeline (
    match documents with
    | _ :: _ =>
        match create_and_persist_index documents with
        | (evs, inr _) => (evs ++ [IndexingComplete], inr tt)
        | (evs, inl e) => (evs, inl e)
        end
    | [] => say NoDocumentsFound (say CheckDirectories ([], inr tt))
    end).

End Backend.

Arguments create_and_persist_index
  {node embedding client collection vector_store storage_context index exn}.
Arguments main
  {node embedding client collection vector_store storage_context index exn}.

End Indexing.

(* ================================================================== *)
(** * What the properties below speak of *)
(* ================================================================== *)

Module Derived.
Import Py.

(** The test of line 65 on a file of [discourse_posts]. *)
Definition has_post_extension {A : Type} (f : string * A) : bool :=
  endswith (fst f) ".jsonl" || endswith (fst f) ".json".

(** The Documents a decoded record contributes: its Document when one
    is built and its text is not blank, nothing otherwise. *)
Definition kept (Document_text : value -> option string) (data : value)
  : list ProcessData.Document :=
  match ProcessData.post_document Document_text data with
  | inr doc => if nonempty (strip (ProcessData.text doc)) then [doc] else []
  | inl _ => []
  end.

(** The same for the lines of a file, blank lines and lines that do
    not decode contributing nothing. *)
Definition kept_of_lines (json_loads : string -> ProcessData.exn + value)
    (Document_text : value -> option string) (lines : list string)
  : list ProcessData.Document :=
  flat_map
    (fun l =>
       if Words.blank l then []
       else match json_loads l with
            | inr data => kept Document_text data
            | inl _ => []
            end)
    lines.

(** The warnings of the loop over the items of an array: one for each
    item whose Document is built with a blank text, with the number of
    the item counted from [item_num + 1]. *)
Fixpoint item_warnings (Document_text : value -> option string)
    (filename : string) (item_num : nat) (items : list value)
  : list ProcessData.event :=
  match items with
  | [] => []
  | data :: rest =>
      match ProcessData.post_document Document_text data with
      | inr doc =>
          if nonempty (strip (ProcessData.text doc)) then []
          else [ProcessData.WarnEmptyItem (item_num + 1) filename]
      | inl _ => []
      end
      ++ item_warnings Document_text filename (S item_num) rest
  end.

(** A Document can be built from the record. *)
Definition builds (Document_text : value -> option string) (data : value)
  : bool :=
  match ProcessData.post_document Document_text data with
  | inr _ => true
  | inl _ => false
  end.

(** The events of the loop over the items of an array. *)
Definition item_event (ev : ProcessData.event) : Prop :=
  match ev with
  | ProcessData.WarnEmptyItem _ _ => True
  | _ => False
  end.

(** The metadata keys of a Document built from a post, in order. *)
Definition post_keys : list string :=
  ["url"; "topic_title"; "post_id"; "post_number"; "author";
   "created_at"; "source_type"; "tags"].

(** The shape of the metadata of a post: the eight keys, the source
    type of a post, and tags that are not a list. *)
Definition post_schema (doc : ProcessData.Document) : Prop :=
  map fst (ProcessData.metadata doc) = post_keys
  /\ lookup (ProcessData.metadata doc) "source_type"
     = Some (VStr "discourse_post")
  /\ ProcessData.is_discourse_post doc = true
  /\ forall l, lookup (ProcessData.metadata doc) "tags" <> Some (VList l).

(** The questions the engine was asked, in order. *)
Definition queries (effects : list Main.effect) : list string :=
  flat_map
    (fun e => match e with Main.Queried q => [q] | _ => [] end)
    effects.

(** The segment has a URL that is not empty. *)
Definition has_url (n : Main.Node) : bool :=
  truthy (get (Main.node_metadata n) "url").

(** The engine with the segments that have no URL taken out of
    every response. *)
Definition without_urlless (engine : Main.Engine) : Main.Engine :=
  fun q =>
    match engine q with
    | inr r =>
        inr (Main.mkResponse (Main.response_str r)
               (filter has_url (Main.source_nodes r)))
    | inl e => inl e
    end.

(** The four keys the handler reads hold strings where they are
    present. *)
Definition string_or_absent (o : option value) : bool :=
  match o with
  | None => true
  | Some (VStr _) => true
  | Some _ => false
  end.

Definition string_valued (n : Main.Node) : bool :=
  string_or_absent (lookup (Main.node_metadata n) "title")
  && string_or_absent (lookup (Main.node_metadata n) "topic_title")
  && string_or_absent (lookup (Main.node_metadata n) "text")
  && string_or_absent (lookup (Main.node_metadata n) "url").

Definition str_of (v : value) : string :=
  match v with
  | VStr s => s
  | _ => ""
  end.

(** The link of a segment whose four keys hold strings: none without
    a URL, else the URL with the first title that is not empty. *)
Definition link_of (n : Main.Node) : list Main.SourceLink :=
  if has_url n
  then [Main.mkSourceLink
          (str_of (get (Main.node_metadata n) "url"))
          (str_of (Words.title_if_nonempty (Main.node_metadata n)))]
  else [].

(** The input ends the session: [exit] or [quit] in any case, between
    optional whitespace. *)
Definition is_exit (line : string) : bool :=
  VirtualTaApp.is_exit_word (VirtualTaApp.lower (strip line)).

(** The inputs before the first one that ends the session. *)
Fixpoint before_exit (inputs : list string) : list string :=
  match inputs with
  | [] => []
  | line :: rest => if is_exit line then [] else line :: before_exit rest
  end.

(** The questions of a session: the inputs before the exit, trimmed,
    without the blank ones. *)
Definition asked (inputs : list string) : list string :=
  filter nonempty (map strip (before_exit inputs)).

(** The questions the session put to the engine, in order. *)
Definition session_queries (evs : list VirtualTaApp.event) : list string :=
  flat_map
    (fun e => match e with VirtualTaApp.Queried q => [q] | _ => [] end)
    evs.

End Derived.

(* ================================================================== *)
(** * Facts about the string methods *)
(* ================================================================== *)

Module PyFacts.
Import Py.

Lemma nonempty_false (s : string) : nonempty s = false <-> s = "".
Proof.
  unfold nonempty. destruct s; simpl; split; intro H;
    try reflexivity; discriminate.
Qed.

Lemma lstrip_all_space (s : string) :
  lstrip s = "" <-> all_space s = true.
Proof.
  induction s as [|c s IH]; simpl.
  - split; reflexivity.
  - destruct (isspace c); simpl.
    + exact IH.
    + split; discriminate.
Qed.

Lemma rstrip_all_space (s : string) :
  rstrip s = "" <-> all_space s = true.
Proof.
  induction s as [|c s IH]; simpl.
  - split; reflexivity.
  - destruct (rstrip s) eqn:E.
    + destruct (isspace c); simpl.
      * split; intros _; [apply IH|]; reflexivity.
      * split; discriminate.
    + split; [discriminate|].
      intro H. apply andb_true_iff in H. destruct H as [_ H].
      apply IH in H. discriminate.
Qed.

Lemma all_space_lstrip (s : string) :
  all_space (lstrip s) = all_space s.
Proof.
  induction s as [|c s IH]; simpl; [reflexivity|].
  destruct (isspace c) eqn:E; simpl; [exact IH | now rewrite E].
Qed.

(** [s.strip()] is empty exactly when [s] is empty or whitespace only. *)
Lemma strip_all_space (s : string) :
  strip s = "" <-> all_space s = true.
Proof.
  unfold strip. rewrite rstrip_all_space, all_space_lstrip. reflexivity.
Qed.

Lemma nonempty_strip (s : string) :
  nonempty (strip s) = negb (all_space s).
Proof.
  destruct (all_space s) eqn:E.
  - apply strip_all_space in E. rewrite E. reflexivity.
  - destruct (nonempty (strip s)) eqn:N; [reflexivity|].
    apply nonempty_false in N. apply strip_all_space in N. congruence.
Qed.

End PyFacts.

(* ================================================================== *)
(** * The POST / handler *)
(* ================================================================== *)

Module HandlerProofs.
Import Py Main Words Samples PyFacts.

Section Links.

Variable str_field : value -> option string.

(** A link comes from a segment whose URL is not empty. *)
Lemma source_link_some (metadata : dict) (link : SourceLink) :
  source_link str_field metadata = inr (Some link) ->
  truthy (get metadata "url") = true
  /\ str_field (get metadata "url") = Some (url link)
  /\ str_field (resolve_title metadata) = Some (title link).
Proof.
  unfold source_link. destruct (truthy (get metadata "url")); [|discriminate].
  destruct (str_field (get metadata "url")) as [u|]; [|discriminate].
  destruct (str_field (resolve_title metadata)) as [t|]; [|discriminate].
  intro H. injection H as <-. auto.
Qed.

Lemma source_link_none (metadata : dict) :
  source_link str_field metadata = inr None ->
  truthy (get metadata "url") = false.
Proof.
  unfold source_link. destruct (truthy (get metadata "url")); [|reflexivity].
  destruct (str_field (get metadata "url")); [|discriminate].
  destruct (str_field (resolve_title metadata)); discriminate.
Qed.

(** The loop appends to [links], one link for each segment that has a
    URL, in the order of the segments. *)
Lemma build_links_appends (nodes : list Node) :
  forall acc result,
    build_links str_field nodes acc = inr result ->
    exists new,
      result = acc ++ new
      /\ Forall2 (fun v link => str_field v = Some (url link))
                 (urls_in_order nodes) new.
Proof.
  induction nodes as [|node nodes IH]; simpl; intros acc result H.
  - injection H as <-. exists []. rewrite app_nil_r. split; constructor.
  - destruct (source_link str_field (node_metadata node))
      as [e|[link|]] eqn:E; [discriminate| |].
    + apply source_link_some in E. destruct E as (Hu & Hs & _).
      apply IH in H. destruct H as (new & -> & HF).
      exists (link :: new). rewrite <- app_assoc. split; [reflexivity|].
      unfold urls_in_order in *. simpl. rewrite Hu. constructor; assumption.
    + apply source_link_none in E.
      apply IH in H. destruct H as (new & -> & HF).
      exists new. split; [reflexivity|].
      unfold urls_in_order in *. simpl. rewrite E. assumption.
Qed.


(** C1, as amended: the links list of a successful response has one
    entry for every retrieved segment whose URL is not empty, in
    retrieval order; segments that share a URL each contribute their
    own entry. *)
Theorem links_follow_segments
    (query_engine : option Engine) (request : QueryRequest)
    (response : QueryResponse)
    (H : fst (query_ta str_field query_engine request) = inr response) :
  exists engine retrieved,
    query_engine = Some engine
    /\ engine (strip (question request)) = inr retrieved
    /\ Forall2 (fun v link => str_field v = Some (url link))
               (urls_in_order (source_nodes retrieved)) (links response)
    /\ length (links response)
       = length (urls_in_order (source_nodes retrieved)).
Proof.
  unfold query_ta in H.
  destruct query_engine as [engine|]; [|discriminate].
  destruct (negb (nonempty (strip (question request)))); [discriminate|].
  destruct (engine (strip (question request))) as [e|retrieved] eqn:Q;
    [discriminate|].
  destruct (build_links str_field (source_nodes retrieved) [])
    as [e|ls] eqn:B; [discriminate|].
  simpl in H. injection H as <-.
  apply build_links_appends in B. destruct B as (new & -> & HF).
  exists engine, retrieved. simpl.
  repeat split; try assumption.
  symmetry. exact (Forall2_length HF).
Qed.


(** C8: with the engine initialized, a question that is empty or
    whitespace only gets the 400 error, and the engine is not called. *)
Theorem empty_question_rejected
    (engine : Engine) (request : QueryRequest)
    (H : all_space (question request) = true) :
  query_ta str_field (Some engine) request
  = (inl (mkHTTPException 400 QuestionEmpty), [])
  /\ forall q, ~ In (Queried q)
                    (snd (query_ta str_field (Some engine) request)).
Proof.
  assert (E : query_ta str_field (Some engine) request
              = (inl (mkHTTPException 400 QuestionEmpty), [])).
  { unfold query_ta. rewrite nonempty_strip, H. reflexivity. }
  split; [exact E|]. intros q. rewrite E. simpl. tauto.
Qed.

(** C9: while the global engine is unset, at import and after a
    start-up whose initialization raised, every request gets the 503
    error: the handler returns no response and calls nothing. *)
Theorem engine_not_ready (request : QueryRequest) :
  query_ta str_field None request
  = (inl (mkHTTPException 503 EngineNotInitialized), [])
  /\ query_ta str_field query_engine_at_import request
     = (inl (mkHTTPException 503 EngineNotInitialized), [])
  /\ forall e,
       query_ta str_field (fst (startup_event (inl e))) request
       = (inl (mkHTTPException 503 EngineNotInitialized), []).
Proof. repeat split. Qed.

(** C10: the readiness test comes first: a question that is empty or
    whitespace only, sent while the engine is unset, gets the 503
    error and not the 400 error an initialized engine would give. *)
Theorem not_ready_before_empty
    (request : QueryRequest)
    (H : all_space (question request) = true) :
  fst (query_ta str_field None request)
  = inl (mkHTTPException 503 EngineNotInitialized)
  /\ fst (query_ta str_field None request)
     <> inl (mkHTTPException 400 QuestionEmpty)
  /\ forall engine,
       fst (query_ta str_field (Some engine) request)
       = inl (mkHTTPException 400 QuestionEmpty).
Proof.
  split; [reflexivity|]. split; [discriminate|].
  intro engine. unfold query_ta. rewrite nonempty_strip, H. reflexivity.
Qed.

End Links.

(** C1, as stated, fails: two retrieved segments with the same URL give
    two link entries. *)
Lemma links_keep_duplicates :
  exists response,
    fst (query_ta strict_str (Some two_segments)
           (mkQueryRequest "How do I use pandas?" None))
    = inr response
    /\ links response
       = [mkSourceLink "http://a" "Pandas Basics";
          mkSourceLink "http://a" "Pandas Basics"]
    /\ ~ NoDup (map url (links response)).
Proof.
  eexists. split; [reflexivity|]. split; [reflexivity|].
  simpl. intro H. inversion H as [|x l Hin _]. apply Hin. left. reflexivity.
Qed.

Lemma links_follow_segments_witness :
  exists engine retrieved,
    Some two_segments = Some engine
    /\ engine (strip "How do I use pandas?") = inr retrieved
    /\ Forall2 (fun v link => strict_str v = Some (url link))
         (urls_in_order (source_nodes retrieved))
         [mkSourceLink "http://a" "Pandas Basics";
          mkSourceLink "http://a" "Pandas Basics"]
    /\ 2 = length (urls_in_order (source_nodes retrieved)).
Proof.
  exact (links_follow_segments strict_str (Some two_segments)
           (mkQueryRequest "How do I use pandas?" None)
           (mkQueryResponse "Use pandas."
              [mkSourceLink "http://a" "Pandas Basics";
               mkSourceLink "http://a" "Pandas Basics"])
           eq_refl).
Defined.

(** A key that holds the empty string counts as not present: the
    normalizer stores a post without a topic title under the key
    [topic_title] with the empty string, and its link takes the URL as
    title. *)
Lemma empty_topic_title_skipped :
  source_link strict_str untitled_post
  = inr (Some (mkSourceLink "http://x" "http://x"))
  /\ lookup untitled_post "topic_title" = Some (VStr "").
Proof. split; reflexivity. Qed.


Lemma empty_question_rejected_witness :
  query_ta strict_str (Some two_segments) (mkQueryRequest "   " None)
  = (inl (mkHTTPException 400 QuestionEmpty), []).
Proof.
  apply (proj1 (empty_question_rejected strict_str two_segments
                  (mkQueryRequest "   " None) eq_refl)).
Defined.

Lemma not_ready_before_empty_witness :
  fst (query_ta strict_str None (mkQueryRequest "   " None))
  = inl (mkHTTPException 503 EngineNotInitialized).
Proof.
  apply (proj1 (not_ready_before_empty strict_str
                  (mkQueryRequest "   " None) eq_refl)).
Defined.

End HandlerProofs.

(* ================================================================== *)
(** * The record normalizer *)
(* ================================================================== *)

Module LoaderProofs.
Import Py ProcessData Words Samples PyFacts.
Local Open Scope py_scope.

Lemma extend_nil (st : state) : extend st [] [] = st.
Proof. destruct st. unfold extend. simpl. now rewrite !app_nil_r. Qed.

Lemma extend_extend (st : state) d1 e1 d2 e2 :
  extend (extend st d1 e1) d2 e2 = extend st (d1 ++ d2) (e1 ++ e2).
Proof. unfold extend. simpl. now rewrite !app_assoc. Qed.

Section Growth.

Context {A : Type}.
Variables (Pd : Document -> Prop) (Pe : event -> Prop).

Lemma grows_ret (a : A) : grows (ret a) Pd Pe.
Proof.
  intro st. exists [], []. simpl. rewrite extend_nil. auto.
Qed.

Lemma grows_raise (e : exn) : grows (@raise A e) Pd Pe.
Proof.
  intro st. exists [], []. simpl. rewrite extend_nil. auto.
Qed.

Lemma grows_lift (r : exn + A) : grows (lift r) Pd Pe.
Proof. destruct r; [apply grows_raise | apply grows_ret]. Qed.

Lemma grows_bind {B : Type} (m : M B) (k : B -> M A) :
  grows m Pd Pe -> (forall b, grows (k b) Pd Pe) -> grows (bind m k) Pd Pe.
Proof.
  intros Hm Hk st. destruct (Hm st) as (d1 & e1 & E1 & Hd1 & He1).
  unfold bind. destruct (m st) as [[b|e] st1]; simpl in E1; subst st1.
  - destruct (Hk b (extend st d1 e1)) as (d2 & e2 & E2 & Hd2 & He2).
    exists (d1 ++ d2), (e1 ++ e2). rewrite E2, extend_extend.
    repeat split; apply Forall_app; auto.
  - exists d1, e1. auto.
Qed.

Lemma grows_try_except (m : M A) (handler : exn -> M A) :
  grows m Pd Pe -> (forall e, grows (handler e) Pd Pe) ->
  grows (try_except m handler) Pd Pe.
Proof.
  intros Hm Hh st. destruct (Hm st) as (d1 & e1 & E1 & Hd1 & He1).
  unfold try_except. destruct (m st) as [[a|e] st1]; simpl in E1; subst st1.
  - exists d1, e1. auto.
  - destruct (Hh e (extend st d1 e1)) as (d2 & e2 & E2 & Hd2 & He2).
    exists (d1 ++ d2), (e1 ++ e2). rewrite E2, extend_extend.
    repeat split; apply Forall_app; auto.
Qed.

End Growth.

Lemma grows_print Pd (Pe : event -> Prop) (ev : event) :
  Pe ev -> grows (print ev) Pd Pe.
Proof.
  intros H st. exists [], [ev]. unfold print, extend. simpl.
  rewrite app_nil_r. auto.
Qed.

Lemma grows_append (Pd : Document -> Prop) Pe (doc : Document) :
  Pd doc -> grows (append doc) Pd Pe.
Proof.
  intros H st. exists [doc], []. unfold append, extend. simpl.
  rewrite app_nil_r. auto.
Qed.

Lemma grows_get_documents Pd Pe : grows get_documents Pd Pe.
Proof.
  intro st. exists [], []. simpl. rewrite extend_nil. auto.
Qed.

Lemma grows_weaken {A} (m : M A) (Pd Pd' : Document -> Prop)
    (Pe Pe' : event -> Prop) :
  (forall d, Pd d -> Pd' d) -> (forall e, Pe e -> Pe' e) ->
  grows m Pd Pe -> grows m Pd' Pe'.
Proof.
  intros Hd He H st. destruct (H st) as (docs & evs & E & H1 & H2).
  exists docs, evs. repeat split; auto.
  - eapply Forall_impl; eauto.
  - eapply Forall_impl; eauto.
Qed.

Section Loader.

Variable json_loads : string -> exn + value.
Variable Document_text : value -> option string.

(** ** One record *)

Lemma processed_tags_raises (v : value) (e : exn) :
  processed_tags v = inl e -> e = TypeError.
Proof.
  destruct v; simpl; try discriminate.
  destruct (strs l); [discriminate|]. now intros [= <-].
Qed.

Lemma post_document_never_json (data : value) :
  post_document Document_text data <> inl JSONDecodeError.
Proof.
  unfold ProcessData.post_document. destruct data; try discriminate.
  destruct (processed_tags (get d "tags")) as [e|tags] eqn:E.
  - apply processed_tags_raises in E. subst. discriminate.
  - destruct (Document_text (resolved_text d)); discriminate.
Qed.



Lemma print_extend (ev : event) (st : state) :
  snd (print ev st) = extend st [] [ev].
Proof. unfold print, extend. simpl. now rewrite app_nil_r. Qed.

Lemma append_extend (doc : Document) (st : state) :
  snd (append doc st) = extend st [doc] [].
Proof. unfold append, extend. simpl. now rewrite app_nil_r. Qed.

Lemma add_post_run (data : value) (warning : event) (st : state) :
  add_post Document_text data warning st
  = match post_document Document_text data with
    | inl e => (Raise e, st)
    | inr doc =>
        if nonempty (strip (text doc))
        then (Ret tt, snd (append doc st))
        else (Ret tt, snd (print warning st))
    end.
Proof.
  unfold ProcessData.add_post, bind, lift.
  destruct (post_document Document_text data) as [e|doc]; simpl;
    [reflexivity|].
  destruct (nonempty (strip (text doc))); reflexivity.
Qed.

Lemma nonempty_nonblank (doc : Document) :
  nonempty (strip (text doc)) = true -> nonblank_text doc.
Proof.
  unfold nonblank_text. rewrite nonempty_strip.
  now destruct (all_space (text doc)).
Qed.

Lemma grows_add_post (data : value) (warning : event)
    (Pe : event -> Prop) :
  Pe warning -> grows (add_post Document_text data warning) nonblank_text Pe.
Proof.
  intros Hw st. rewrite add_post_run.
  destruct (post_document Document_text data) as [e|doc].
  - exists [], []. simpl. rewrite extend_nil. auto.
  - destruct (nonempty (strip (text doc))) eqn:N.
    + exists [doc], []. cbv [snd]. rewrite <- append_extend.
      repeat split; auto. constructor; [|constructor].
      now apply nonempty_nonblank.
    + exists [], [warning]. cbv [snd]. rewrite <- print_extend. auto.
Qed.

(** ** The loop over lines *)

Lemma blank_nonempty (line : string) :
  nonempty (strip line) = negb (blank line).
Proof. unfold blank. now rewrite negb_involutive. Qed.

Lemma jsonl_loop_blank fn line rest n lp b st :
  blank line = true ->
  jsonl_loop json_loads Document_text fn (line :: rest) n lp b st
  = jsonl_loop json_loads Document_text fn rest (S n) lp b st.
Proof. intro H. simpl. now rewrite blank_nonempty, H. Qed.

Lemma jsonl_loop_decoded fn line rest n lp b data st :
  blank line = false -> json_loads line = inr data ->
  jsonl_loop json_loads Document_text fn (line :: rest) n lp b st
  = jsonl_loop json_loads Document_text fn rest (S n) (S lp) true
      (after_line Document_text fn n data st).
Proof.
  intros Hb Hd. simpl. rewrite blank_nonempty, Hb, Hd. simpl.
  unfold bind, try_except, Words.after_line. rewrite add_post_run.
  destruct (post_document Document_text data) as [e|doc] eqn:E.
  - destruct e; try reflexivity.
    exfalso. exact (post_document_never_json data E).
  - destruct (nonempty (strip (text doc))); reflexivity.
Qed.

Lemma jsonl_loop_undecoded fn line rest n lp b st :
  blank line = false -> json_loads line = inl JSONDecodeError ->
  jsonl_loop json_loads Document_text fn (line :: rest) n lp b st
  = if ((lp =? 0) && (n =? 0))%nat then (Ret false, st)
    else (Raise JSONDecodeError, st).
Proof.
  intros Hb Hd. simpl. rewrite blank_nonempty, Hb, Hd. simpl.
  destruct ((lp =? 0) && (n =? 0))%nat; reflexivity.
Qed.

(** [json.loads] raised something else: the error of the line is
    printed and the loop goes on as it was. *)
Lemma jsonl_loop_errored fn line rest n lp b e st :
  blank line = false -> json_loads line = inl e -> e <> JSONDecodeError ->
  jsonl_loop json_loads Document_text fn (line :: rest) n lp b st
  = jsonl_loop json_loads Document_text fn rest (S n) lp b
      (snd (print (ErrorPostOnLine (n + 1) fn e) st)).
Proof.
  intros Hb Hd Hn. simpl. rewrite blank_nonempty, Hb, Hd. simpl.
  destruct e; try reflexivity. now elim Hn.
Qed.

Lemma json_error_or_not (e : exn) :
  e = JSONDecodeError \/ e <> JSONDecodeError.
Proof. destruct e; auto; right; discriminate. Qed.

Lemma grows_after_line fn n data st :
  exists docs evs,
    after_line Document_text fn n data st = extend st docs evs
    /\ Forall nonblank_text docs /\ Forall line_event evs.
Proof.
  unfold Words.after_line.
  destruct (post_document Document_text data) as [e|doc].
  - eexists [], [_]. rewrite print_extend. repeat split; auto.
    constructor; simpl; auto.
  - destruct (nonempty (strip (text doc))) eqn:N.
    + exists [doc], []. rewrite append_extend. repeat split; auto.
      constructor; [|constructor]. now apply nonempty_nonblank.
    + eexists [], [_]. rewrite print_extend. repeat split; auto.
      constructor; simpl; auto.
Qed.

Lemma grows_jsonl_loop fn lines :
  forall n lp b,
    grows (jsonl_loop json_loads Document_text fn lines n lp b)
          nonblank_text line_event.
Proof.
  induction lines as [|line rest IH]; intros n lp b st.
  - exists [], []. simpl. rewrite extend_nil. auto.
  - destruct (blank line) eqn:Hb.
    + rewrite jsonl_loop_blank by assumption. apply IH.
    + destruct (json_loads line) as [e|data] eqn:Hd.
      * destruct (json_error_or_not e) as [->|Hn].
        { rewrite jsonl_loop_undecoded by assumption.
          exists [], []. rewrite extend_nil.
          destruct ((lp =? 0) && (n =? 0))%nat; simpl; auto. }
        { rewrite (jsonl_loop_errored _ _ _ _ _ _ e) by assumption.
          rewrite print_extend.
          destruct (IH (S n) lp b
                      (extend st [] [ErrorPostOnLine (n + 1) fn e]))
            as (d2 & e2 & E2 & ? & ?).
          exists d2, (ErrorPostOnLine (n + 1) fn e :: e2).
          rewrite E2, extend_extend. simpl.
          repeat split; auto. constructor; simpl; auto. }
      * rewrite (jsonl_loop_decoded _ _ _ _ _ _ data) by assumption.
        destruct (grows_after_line fn n data st) as (d1 & e1 & E1 & ? & ?).
        rewrite E1.
        destruct (IH (S n) (S lp) true (extend st d1 e1))
          as (d2 & e2 & E2 & ? & ?).
        exists (d1 ++ d2), (e1 ++ e2). rewrite E2, extend_extend.
        repeat split; apply Forall_app; auto.
Qed.

(** Once a line has decoded, the loop cannot leave through [break]. *)
Lemma jsonl_loop_started fn lines :
  forall n lp st,
    fst (jsonl_loop json_loads Document_text fn lines n (S lp) true st)
    <> Ret false.
Proof.
  induction lines as [|line rest IH]; intros n lp st.
  - simpl. discriminate.
  - destruct (blank line) eqn:Hb.
    + rewrite jsonl_loop_blank by assumption. apply IH.
    + destruct (json_loads line) as [e|data] eqn:Hd.
      * destruct (json_error_or_not e) as [->|Hn].
        { rewrite jsonl_loop_undecoded by assumption. simpl.
          discriminate. }
        { rewrite (jsonl_loop_errored _ _ _ _ _ _ e) by assumption.
          apply IH. }
      * rewrite (jsonl_loop_decoded _ _ _ _ _ _ data) by assumption.
        apply IH.
Qed.

(** While no line has decoded, the loop ends with [is_jsonl] false
    exactly in the cases of [falls_back_from], and then it has only
    printed the errors of the lines on which [json.loads] raised
    something else than [JSONDecodeError]. *)
Lemma jsonl_loop_falls_back fn lines :
  forall n st,
    (falls_back_from json_loads n lines = true ->
     jsonl_loop json_loads Document_text fn lines n 0 false st
     = (Ret false, extend st [] (undecoded_errors json_loads fn n lines)))
    /\ (falls_back_from json_loads n lines = false ->
        fst (jsonl_loop json_loads Document_text fn lines n 0 false st)
        <> Ret false).
Proof.
  induction lines as [|line rest IH]; intros n st.
  - simpl. rewrite extend_nil. split; [reflexivity | discriminate].
  - simpl falls_back_from. simpl undecoded_errors.
    destruct (blank line) eqn:Hb.
    + rewrite jsonl_loop_blank by assumption. apply IH.
    + destruct (json_loads line) as [e|data] eqn:Hd.
      * destruct (json_error_or_not e) as [->|Hn].
        { rewrite jsonl_loop_undecoded by assumption. simpl.
          rewrite extend_nil.
          destruct (n =? 0)%nat; split;
            try reflexivity; discriminate. }
        { rewrite (jsonl_loop_errored _ _ _ _ _ _ e) by assumption.
          rewrite print_extend.
          destruct (IH (S n) (extend st [] [ErrorPostOnLine (n + 1) fn e]))
            as [T F].
          destruct e; try (now elim Hn);
            (split; [intro H; rewrite (T H), extend_extend; reflexivity
                    | exact F]). }
      * split; [discriminate|]. intros _.
        rewrite (jsonl_loop_decoded _ _ _ _ _ _ data) by assumption.
        apply jsonl_loop_started.
Qed.

(** The loop runs through lines none of which is a JSON syntax error
    and goes on with what follows them. *)
Lemma jsonl_loop_past fn good tail :
  forall n lp b st,
    no_syntax_error json_loads good = true ->
    exists lp' b',
      jsonl_loop json_loads Document_text fn (good ++ tail) n lp b st
      = jsonl_loop json_loads Document_text fn tail (n + length good)
          lp' b'
          (snd (jsonl_loop json_loads Document_text fn good n lp b st)).
Proof.
  induction good as [|line rest IH]; intros n lp b st H.
  - exists lp, b. simpl. now rewrite Nat.add_0_r.
  - simpl in H. apply andb_true_iff in H. destruct H as [H1 H2].
    rewrite <- app_comm_cons. simpl length. rewrite Nat.add_succ_r.
    destruct (blank line) eqn:Hb.
    + rewrite !jsonl_loop_blank by assumption. now apply IH.
    + simpl in H1. destruct (json_loads line) as [e|data] eqn:Hd.
      * assert (Hn : e <> JSONDecodeError) by (intros ->; discriminate).
        rewrite !(jsonl_loop_errored _ _ _ _ _ _ e) by assumption.
        now apply IH.
      * rewrite !(jsonl_loop_decoded _ _ _ _ _ _ data) by assumption.
        now apply IH.
Qed.

(** ** The loop over the items of an array *)

Lemma grows_array_loop fn items :
  forall n, grows (array_loop Document_text fn items n) nonblank_text
                  (fun _ => True).
Proof.
  induction items as [|data rest IH]; intro n; simpl.
  - apply grows_ret.
  - apply grows_bind; [now apply grows_add_post | intros _; apply IH].
Qed.

(** ** One file *)

(** ** One file *)

Lemma grows_array_part fn content :
  grows (json_array <- loads json_loads content ;;
         match json_array with
         | VList items =>
             array_loop Document_text fn items 0 ;;
             docs <- get_documents ;;
             print (LoadedFromArray (length (filter is_discourse_post docs)))
         | _ => print (ErrorNotArray fn)
         end)
        nonblank_text (fun _ => True).
Proof.
  apply grows_bind.
  - unfold loads. apply grows_lift.
  - intros v. destruct v; try now apply grows_print.
    apply grows_bind; [apply grows_array_loop|]. intros _.
    apply grows_bind; [apply grows_get_documents|]. intros docs.
    now apply grows_print.
Qed.

Lemma grows_file_body fn content :
  grows (file_body json_loads Document_text fn content) nonblank_text
        (fun _ => True).
Proof.
  unfold ProcessData.file_body. apply grows_bind.
  - eapply grows_weaken; [| |apply grows_jsonl_loop]; auto.
  - intros is_jsonl. destruct is_jsonl; simpl; [apply grows_ret|].
    apply grows_bind; [now apply grows_print|]. intros _.
    apply grows_array_part.
Qed.

Lemma grows_load_file fn content :
  grows (load_file json_loads Document_text fn content) nonblank_text
        (fun _ => True).
Proof.
  unfold ProcessData.load_file. apply grows_try_except.
  - apply grows_file_body.
  - intros e. destruct e; now apply grows_print.
Qed.

Lemma load_file_returns fn content st :
  fst (load_file json_loads Document_text fn content st) = Ret tt.
Proof.
  unfold ProcessData.load_file, try_except.
  destruct (file_body json_loads Document_text fn content st)
    as [[[]|e] st']; [reflexivity|].
  destruct e; reflexivity.
Qed.

(** A file whose text was read is handled without raising, and what
    was there stays. *)
Lemma load_file_total fn content st :
  exists docs evs,
    load_file json_loads Document_text fn content st
    = (Ret tt, extend st docs evs)
    /\ Forall nonblank_text docs.
Proof.
  destruct (grows_load_file fn content st) as (docs & evs & E & Hd & _).
  exists docs, evs. split; [|assumption].
  rewrite <- E, <- (load_file_returns fn content st).
  now destruct (load_file json_loads Document_text fn content st).
Qed.

(** ** All files *)

Lemma bind_raise {A B} (m : M A) (k : A -> M B) st e st' :
  m st = (Raise e, st') -> bind m k st = (Raise e, st').
Proof. intro H. unfold bind. now rewrite H. Qed.

(** One turn of the loop over the files. *)
Lemma load_files_cons fn opened rest st :
  load_files json_loads Document_text ((fn, opened) :: rest) st
  = if endswith fn ".jsonl" || endswith fn ".json" then
      match opened with
      | inr content =>
          load_files json_loads Document_text rest
            (snd (load_file json_loads Document_text fn content st))
      | inl e => (Raise e, st)
      end
    else load_files json_loads Document_text rest st.
Proof.
  simpl. destruct (endswith fn ".jsonl" || endswith fn ".json");
    [|reflexivity].
  destruct opened as [e|content]; [reflexivity|].
  unfold bind at 1. unfold bind at 1. simpl.
  destruct (load_file_total fn content st) as (d & ev & E & _).
  now rewrite E.
Qed.

Lemma grows_load_files files :
  grows (load_files json_loads Document_text files) nonblank_text
        (fun _ => True).
Proof.
  induction files as [|[fn opened] rest IH]; intro st.
  - exists [], []. simpl. rewrite extend_nil. auto.
  - rewrite load_files_cons.
    destruct (endswith fn ".jsonl" || endswith fn ".json"); [|apply IH].
    destruct opened as [e|content].
    + exists [], []. simpl. rewrite extend_nil. auto.
    + destruct (load_file_total fn content st) as (d1 & e1 & E1 & H1).
      rewrite E1. simpl snd.
      destruct (IH (extend st d1 e1)) as (d2 & e2 & E2 & H2 & _).
      exists (d1 ++ d2), (e1 ++ e2). rewrite E2, extend_extend.
      split; [reflexivity|]. split; [now apply Forall_app|].
      apply Forall_forall. auto.
Qed.

Lemma load_files_returns files :
  forall st,
    all_readable files = true ->
    fst (load_files json_loads Document_text files st) = Ret tt.
Proof.
  induction files as [|[fn opened] rest IH]; intros st H; [reflexivity|].
  simpl in H. apply andb_true_iff in H. destruct H as [H1 H2].
  rewrite load_files_cons.
  destruct (endswith fn ".jsonl" || endswith fn ".json");
    [|now apply IH].
  destruct opened as [e|content]; [discriminate | now apply IH].
Qed.

Lemma load_files_total files st :
  all_readable files = true ->
  exists docs evs,
    load_files json_loads Document_text files st
    = (Ret tt, extend st docs evs)
    /\ Forall nonblank_text docs.
Proof.
  intro H. destruct (grows_load_files files st) as (docs & evs & E & Hd & _).
  exists docs, evs. split; [|assumption].
  rewrite <- E, <- (load_files_returns files st H).
  now destruct (load_files json_loads Document_text files st).
Qed.

Lemma load_files_app files1 files2 :
  forall st,
    all_readable files1 = true ->
    load_files json_loads Document_text (files1 ++ files2) st
    = load_files json_loads Document_text files2
        (snd (load_files json_loads Document_text files1 st)).
Proof.
  induction files1 as [|[fn opened] rest IH]; intros st H; [reflexivity|].
  simpl in H. apply andb_true_iff in H. destruct H as [H1 H2].
  rewrite <- app_comm_cons, !load_files_cons.
  destruct (endswith fn ".jsonl" || endswith fn ".json");
    [|now apply IH].
  destruct opened as [e|content]; [discriminate | now apply IH].
Qed.

Lemma add_course_docs_run course_docs :
  forall st,
    add_course_docs course_docs st
    = (Ret tt, extend st (map as_course_content course_docs) []).
Proof.
  induction course_docs as [|doc rest IH]; intro st.
  - simpl. now rewrite extend_nil.
  - simpl. unfold bind. simpl. rewrite IH. unfold extend. simpl.
    now rewrite <- app_assoc.
Qed.

Lemma bind_run {A B} (m : M A) (k : A -> M B) st a st' :
  m st = (Ret a, st') -> bind m k st = k a st'.
Proof. intro H. unfold bind. now rewrite H. Qed.

(** The first part of the function: the course documents, marked,
    when the reader returns them; the reader's exception otherwise. *)
Lemma course_content_run (dir : data_dir) (st : state) :
  exists evs,
    snd (match course_content dir with
         | Some reader =>
             print LoadingCourseContent ;;
             course_docs <- lift reader ;;
             add_course_docs course_docs ;;
             print (LoadedCourseContent (length course_docs))
         | None => print CourseContentNotFound
         end st)
    = extend st (map as_course_content (course_docs_of dir)) evs
    /\ ((forall e, course_content dir <> Some (inl e)) ->
        fst (match course_content dir with
             | Some reader =>
                 print LoadingCourseContent ;;
                 course_docs <- lift reader ;;
                 add_course_docs course_docs ;;
                 print (LoadedCourseContent (length course_docs))
             | None => print CourseContentNotFound
             end st) = Ret tt)
    /\ (forall e, course_content dir = Some (inl e) ->
        fst (match course_content dir with
             | Some reader =>
                 print LoadingCourseContent ;;
                 course_docs <- lift reader ;;
                 add_course_docs course_docs ;;
                 print (LoadedCourseContent (length course_docs))
             | None => print CourseContentNotFound
             end st) = Raise e).
Proof.
  unfold course_docs_of.
  destruct (course_content dir) as [[e|course_docs]|].
  - exists [LoadingCourseContent]. unfold bind, print, extend. simpl.
    rewrite app_nil_r. split; [reflexivity|]. split.
    + intros N. now elim (N e).
    + now intros e' [= ->].
  - exists [LoadingCourseContent; LoadedCourseContent (length course_docs)].
    unfold bind. simpl. rewrite add_course_docs_run.
    unfold print, extend. simpl.
    rewrite !app_nil_r, <- !app_assoc.
    split; [reflexivity|]. split; [reflexivity | discriminate].
  - exists [CourseContentNotFound]. unfold print, extend. simpl.
    rewrite app_nil_r.
    split; [reflexivity|]. split; [reflexivity | discriminate].
Qed.

Lemma discourse_posts_run (dir : data_dir) (st : state) :
  exists posts evs,
    snd (match discourse_posts dir with
         | Some files =>
             print LoadingDiscoursePosts ;;
             load_files json_loads Document_text files
         | None => print DiscoursePostsNotFound
         end st) = extend st posts evs
    /\ Forall nonblank_text posts
    /\ ((forall files, discourse_posts dir = Some files ->
                       all_readable files = true) ->
        fst (match discourse_posts dir with
             | Some files =>
                 print LoadingDiscoursePosts ;;
                 load_files json_loads Document_text files
             | None => print DiscoursePostsNotFound
             end st) = Ret tt).
Proof.
  destruct (discourse_posts dir) as [files|].
  - unfold bind. simpl.
    destruct (grows_load_files files
                (mkState (all_documents st)
                         (stdout st ++ [LoadingDiscoursePosts])))
      as (posts & evs & E & H & _).
    exists posts, (LoadingDiscoursePosts :: evs).
    split; [|split; [exact H|]].
    + rewrite E. unfold extend. simpl. now rewrite <- app_assoc.
    + intros R. apply load_files_returns. now apply R.
  - exists [], [DiscoursePostsNotFound]. unfold print, extend. simpl.
    rewrite app_nil_r. auto.
Qed.

(** The function as a whole: what it has appended is the course
    documents as read, then posts whose texts are not blank; the list
    it returns, when it returns, is that list. *)
Lemma load_documents_shape dir st :
  exists posts evs,
    snd (load_documents_with_metadata json_loads Document_text dir st)
    = extend st (map as_course_content (course_docs_of dir) ++ posts) evs
    /\ Forall nonblank_text posts
    /\ (forall docs,
          fst (load_documents_with_metadata json_loads Document_text dir st)
          = Ret docs ->
          docs = all_documents st
                 ++ map as_course_content (course_docs_of dir) ++ posts).
Proof.
  unfold ProcessData.load_documents_with_metadata.
  destruct (course_content_run dir st) as (evs1 & E1 & _ & _).
  set (course := match course_content dir with
                 | Some reader => _ | None => _ end) in *.
  destruct (course st) as [[[]|e] st1] eqn:C; simpl in E1; subst st1.
  - rewrite (bind_run _ _ _ _ _ C).
    destruct (discourse_posts_run dir
                (extend st (map as_course_content (course_docs_of dir))
                   evs1)) as (posts & evs2 & E2 & H & _).
    set (posts_part := match discourse_posts dir with
                       | Some files => _ | None => _ end) in *.
    destruct (posts_part _) as [[[]|e] st2] eqn:P; simpl in E2; subst st2.
    + rewrite (bind_run _ _ _ _ _ P).
      exists posts.
      exists ((evs1 ++ evs2)
              ++ [LoadedTotal
                    (length (all_documents st
                             ++ map as_course_content (course_docs_of dir)
                             ++ posts))]).
      rewrite extend_extend.
      split; [|split; [exact H|]].
      * unfold bind, get_documents, print, ret, extend. simpl.
        now rewrite !app_assoc.
      * intros docs. unfold bind, get_documents, print, ret, extend.
        simpl. now intros [= <-].
    + rewrite (bind_raise _ _ _ _ _ P).
      exists posts, (evs1 ++ evs2). rewrite extend_extend.
      split; [reflexivity|]. split; [exact H | discriminate].
  - rewrite (bind_raise _ _ _ _ _ C).
    exists [], evs1. rewrite app_nil_r.
    split; [reflexivity|]. split; [constructor | discriminate].
Qed.

(** When the reader returns and every file can be read, the function
    returns its list. *)
Lemma load_documents_returns dir st :
  (forall e, course_content dir <> Some (inl e)) ->
  (forall files, discourse_posts dir = Some files ->
                 all_readable files = true) ->
  exists st',
    load_documents_with_metadata json_loads Document_text dir st
    = (Ret (all_documents st'), st').
Proof.
  intros Hc Hf. unfold ProcessData.load_documents_with_metadata.
  destruct (course_content_run dir st) as (evs1 & _ & R1 & _).
  specialize (R1 Hc).
  set (course := match course_content dir with
                 | Some reader => _ | None => _ end) in *.
  destruct (course st) as [r1 st1] eqn:C. simpl in R1. subst r1.
  rewrite (bind_run _ _ _ _ _ C).
  destruct (discourse_posts_run dir st1) as (posts & evs2 & _ & _ & R2).
  specialize (R2 Hf).
  set (posts_part := match discourse_posts dir with
                     | Some files => _ | None => _ end) in *.
  destruct (posts_part st1) as [r2 st2] eqn:P. simpl in R2. subst r2.
  rewrite (bind_run _ _ _ _ _ P).
  exists (snd (print (LoadedTotal (length (all_documents st2))) st2)).
  reflexivity.
Qed.

(** When the loop leaves through [break] or finds no line to decode,
    the file is decoded as a whole, after the errors of single lines
    and the message of line 118. *)
Lemma load_file_fallback fn content st :
  falls_back json_loads (splitlines content) = true ->
  load_file json_loads Document_text fn content st
  = try_except
      (json_array <- loads json_loads content ;;
       match json_array with
       | VList items =>
           array_loop Document_text fn items 0 ;;
           docs <- get_documents ;;
           print (LoadedFromArray (length (filter is_discourse_post docs)))
       | _ => print (ErrorNotArray fn)
       end)
      (fun e =>
         match e with
         | JSONDecodeError => print (ErrorParsing fn)
         | _ => print (ErrorFile fn e)
         end)
      (extend st []
         (undecoded_errors json_loads fn 0 (splitlines content)
          ++ [AttemptArray fn])).
Proof.
  intro F. unfold ProcessData.load_file, ProcessData.file_body.
  unfold try_except at 1 2.
  rewrite (bind_run _ _ _ _ _
             (proj1 (jsonl_loop_falls_back fn (splitlines content) 0 st) F)).
  replace (extend st []
             (undecoded_errors json_loads fn 0 (splitlines content)
              ++ [AttemptArray fn]))
    with (snd (print (AttemptArray fn)
                 (extend st []
                    (undecoded_errors json_loads fn 0
                       (splitlines content)))))
    by now rewrite print_extend, extend_extend.
  reflexivity.
Qed.

Lemma line_events_no_attempt (evs : list event) (fn : string) :
  Forall line_event evs -> ~ In (AttemptArray fn) evs.
Proof.
  intros H Hin. rewrite Forall_forall in H. exact (H _ Hin).
Qed.


Lemma jsonl_loop_blanks fn lines :
  forall n lp b st,
    forallb blank lines = true ->
    jsonl_loop json_loads Document_text fn lines n lp b st = (Ret b, st).
Proof.
  induction lines as [|line rest IH]; intros n lp b st H; [reflexivity|].
  simpl in H. apply andb_true_iff in H. destruct H as [H1 H2].
  rewrite jsonl_loop_blank by assumption. now apply IH.
Qed.

Lemma blanks_no_syntax_error (lines : list string) :
  forallb blank lines = true -> no_syntax_error json_loads lines = true.
Proof.
  unfold no_syntax_error. induction lines as [|line rest IH]; simpl;
    [reflexivity|].
  intro H. apply andb_true_iff in H. destruct H as [H1 H2].
  now rewrite H1, IH.
Qed.

(** A line that is not JSON, met after other lines, ends the file:
    what the lines before it added and printed stays, the parse error
    of the file is printed, and the lines after it play no part. *)
Lemma load_file_gives_up fn content good bad rest st :
  splitlines content = good ++ bad :: rest ->
  good <> [] -> no_syntax_error json_loads good = true ->
  blank bad = false -> json_loads bad = inl JSONDecodeError ->
  load_file json_loads Document_text fn content st
  = (Ret tt,
     snd (print (ErrorParsing fn)
            (snd (jsonl_loop json_loads Document_text fn good
                    0 0 false st)))).
Proof.
  intros Hs Hg Ha Hb Hd.
  unfold ProcessData.load_file, ProcessData.file_body, try_except, bind.
  rewrite Hs.
  destruct (jsonl_loop_past fn good (bad :: rest) 0 0 false st Ha)
    as (lp' & b' & E).
  rewrite E, jsonl_loop_undecoded by assumption.
  destruct good as [|g good']; [congruence|].
  simpl length. simpl Nat.add.
  replace (S (length good') =? 0)%nat with false by reflexivity.
  rewrite andb_false_r. reflexivity.
Qed.

(** ** The claims *)

(** C2, as amended: in line-delimited mode a record that decodes but
    cannot be turned into a Document, and a line on which the decoder
    raises anything but a JSON syntax error, are skipped with a logged
    error and the loop goes on with the remaining lines; a line that
    is not JSON, anywhere but on the first line of the file, ends that
    file with a logged parse error, the documents taken before it
    being kept and the remaining lines not read; a file whose text
    could be read never raises, whatever it holds, and the files after
    it are processed; when the course reader returns and every file
    can be read, the run returns its list. *)
Theorem malformed_input_isolated :
  (forall fn line rest n lp b data e st,
      blank line = false -> json_loads line = inr data ->
      post_document Document_text data = inl e ->
      jsonl_loop json_loads Document_text fn (line :: rest) n lp b st
      = jsonl_loop json_loads Document_text fn rest (S n) (S lp) true
          (snd (print (ErrorPostOnLine (n + 1) fn e) st)))
  /\ (forall fn line rest n lp b e st,
         blank line = false -> json_loads line = inl e ->
         e <> JSONDecodeError ->
         jsonl_loop json_loads Document_text fn (line :: rest) n lp b st
         = jsonl_loop json_loads Document_text fn rest (S n) lp b
             (snd (print (ErrorPostOnLine (n + 1) fn e) st)))
  /\ (forall fn content good bad rest st,
         splitlines content = good ++ bad :: rest ->
         good <> [] -> no_syntax_error json_loads good = true ->
         blank bad = false -> json_loads bad = inl JSONDecodeError ->
         load_file json_loads Document_text fn content st
         = (Ret tt,
            snd (print (ErrorParsing fn)
                   (snd (jsonl_loop json_loads Document_text fn good
                           0 0 false st)))))
  /\ (forall fn content st,
         exists docs evs,
           load_file json_loads Document_text fn content st
           = (Ret tt, extend st docs evs))
  /\ (forall files1 files2 st,
         all_readable files1 = true ->
         load_files json_loads Document_text (files1 ++ files2) st
         = load_files json_loads Document_text files2
             (snd (load_files json_loads Document_text files1 st)))
  /\ (forall dir st,
         (forall e, course_content dir <> Some (inl e)) ->
         (forall files, discourse_posts dir = Some files ->
                        all_readable files = true) ->
         exists st',
           load_documents_with_metadata json_loads Document_text dir st
           = (Ret (all_documents st'), st')).
Proof.
  split; [|split; [|split; [|split; [|split]]]].
  - intros fn line rest n lp b data e st Hb Hd He.
    rewrite (jsonl_loop_decoded _ _ _ _ _ _ data) by assumption.
    unfold Words.after_line. now rewrite He.
  - intros fn line rest n lp b e st Hb Hd Hn.
    now apply jsonl_loop_errored.
  - intros fn content good bad rest st Hs Hg Ha Hb Hd.
    now apply (load_file_gives_up fn content good bad rest).
  - intros fn content st.
    destruct (load_file_total fn content st) as (docs & evs & E & _).
    now exists docs, evs.
  - intros. now apply load_files_app.
  - intros dir st Hc Hf. now apply load_documents_returns.
Qed.

(** C3, as amended: line-delimited decoding is tried first, and the
    whole content is decoded as one JSON array exactly when no line
    has decoded and either the first line of the file is not blank and
    is not JSON, or the end of the lines is reached over blank lines
    and lines on which the decoder raised something else than a JSON
    syntax error; when the first line is not blank and the decoder
    raises nothing but syntax errors on it, this is the case exactly
    when the first non-empty line fails to parse; when the first
    non-empty line comes after blank lines and is not JSON, the file
    is given up with a parse error; in the fallback a content that is
    not JSON is a logged parse error and a value that is not an array
    is skipped with an error. *)
Theorem fallback_condition (fn content : string) (st : state) :
  (exists docs evs,
      snd (load_file json_loads Document_text fn content st)
      = extend st docs evs
      /\ (In (AttemptArray fn) evs
          <-> falls_back json_loads (splitlines content) = true))
  /\ (forall l0 rest,
         splitlines content = l0 :: rest -> blank l0 = false ->
         (forall e, json_loads l0 = inl e -> e = JSONDecodeError) ->
         falls_back json_loads (splitlines content)
         = first_nonblank_fails json_loads (splitlines content))
  /\ (forall blanks bad rest,
         splitlines content = blanks ++ bad :: rest ->
         blanks <> [] -> forallb blank blanks = true ->
         blank bad = false -> json_loads bad = inl JSONDecodeError ->
         load_file json_loads Document_text fn content st
         = (Ret tt, extend st [] [ErrorParsing fn]))
  /\ (falls_back json_loads (splitlines content) = true ->
      json_loads content = inl JSONDecodeError ->
      snd (load_file json_loads Document_text fn content st)
      = extend st []
          (undecoded_errors json_loads fn 0 (splitlines content)
           ++ [AttemptArray fn; ErrorParsing fn]))
  /\ (falls_back json_loads (splitlines content) = true ->
      forall v, json_loads content = inr v ->
                (forall items, v <> VList items) ->
      snd (load_file json_loads Document_text fn content st)
      = extend st []
          (undecoded_errors json_loads fn 0 (splitlines content)
           ++ [AttemptArray fn; ErrorNotArray fn])).
Proof.
  split; [|split; [|split; [|split]]].
  - destruct (falls_back json_loads (splitlines content)) eqn:F.
    + rewrite load_file_fallback by assumption.
      set (handler := fun e : exn => _).
      assert (G : grows
                    (try_except
                       (json_array <- loads json_loads content ;;
                        match json_array with
                        | VList items =>
                            array_loop Document_text fn items 0 ;;
                            docs <- get_documents ;;
                            print (LoadedFromArray
                                     (length (filter is_discourse_post docs)))
                        | _ => print (ErrorNotArray fn)
                        end) handler)
                    nonblank_text (fun _ => True)).
      { apply grows_try_except; [apply grows_array_part|].
        intros e. subst handler. destruct e; now apply grows_print. }
      destruct (G (extend st []
                     (undecoded_errors json_loads fn 0 (splitlines content)
                      ++ [AttemptArray fn])))
        as (docs & evs & E & _ & _).
      exists docs,
        ((undecoded_errors json_loads fn 0 (splitlines content)
          ++ [AttemptArray fn]) ++ evs).
      rewrite E, extend_extend. simpl.
      split; [reflexivity|]. split; [reflexivity|]. intros _.
      apply in_or_app. left. apply in_or_app. right. now left.
    + pose proof (proj2 (jsonl_loop_falls_back fn (splitlines content) 0 st)
                    F) as NF.
      destruct (grows_jsonl_loop fn (splitlines content) 0 0 false st)
        as (d1 & e1 & E1 & _ & L1).
      unfold ProcessData.load_file, ProcessData.file_body, try_except, bind.
      destruct (jsonl_loop json_loads Document_text fn (splitlines content)
                  0 0 false st) as [[[|]|e] st1]; simpl in E1, NF; subst st1.
      * exists d1, e1. simpl. split; [reflexivity|].
        split; [|discriminate].
        intro Hin. exfalso. exact (line_events_no_attempt _ _ L1 Hin).
      * congruence.
      * exists d1.
        exists (e1 ++ [match e with
                       | JSONDecodeError => ErrorParsing fn
                       | _ => ErrorFile fn e
                       end]).
        split.
        { destruct e; cbn beta iota; rewrite print_extend, extend_extend;
            now rewrite app_nil_r. }
        split; [|discriminate].
        intro Hin. apply in_app_or in Hin. destruct Hin as [Hin|Hin].
        { exfalso. exact (line_events_no_attempt _ _ L1 Hin). }
        { destruct e; simpl in Hin; destruct Hin as [Hin|[]];
            discriminate. }
  - intros l0 rest E Hb He. rewrite E.
    unfold falls_back, first_nonblank_fails. simpl. rewrite Hb. simpl.
    destruct (json_loads l0) as [e|v]; [|reflexivity].
    now rewrite (He e eq_refl).
  - intros blanks bad rest Hs Hg Ha Hb Hd.
    rewrite (load_file_gives_up fn content blanks bad rest)
      by auto using blanks_no_syntax_error.
    now rewrite jsonl_loop_blanks, print_extend by assumption.
  - intros F Hd. rewrite load_file_fallback by assumption.
    unfold try_except, bind, loads. rewrite Hd. simpl.
    unfold print, extend. simpl. now rewrite <- !app_assoc.
  - intros F v Hd Hv. rewrite load_file_fallback by assumption.
    unfold try_except, bind, loads. rewrite Hd. simpl.
    destruct v as [ | ? | ? | ? | ? | items | ? ];
      try (unfold print, extend; simpl; now rewrite <- !app_assoc).
    exfalso. exact (Hv items eq_refl).
Qed.



(** C6, as amended: a discussion-post record whose resolved text is
    empty or whitespace only adds no Document, only the warning; every
    Document the loop over the discussion-post files adds, on every
    path, has a text that is not empty after trimming; the list the
    function returns is the course documents as read followed by such
    Documents. *)
Theorem blank_text_never_kept :
  (forall data warning doc st,
      post_document Document_text data = inr doc ->
      all_space (text doc) = true ->
      add_post Document_text data warning st
      = (Ret tt, snd (print warning st))
      /\ all_documents (snd (add_post Document_text data warning st))
         = all_documents st)
  /\ (forall files st,
         exists docs evs,
           snd (load_files json_loads Document_text files st)
           = extend st docs evs
           /\ Forall (fun d => strip (text d) <> "") docs)
  /\ (forall dir docs st',
         load_documents_with_metadata json_loads Document_text dir initial
         = (Ret docs, st') ->
         exists posts,
           docs = map as_course_content (course_docs_of dir) ++ posts
           /\ Forall (fun d => strip (text d) <> "") posts).
Proof.
  assert (W : forall docs, Forall nonblank_text docs ->
                Forall (fun d => strip (text d) <> "") docs).
  { intros docs Hd. eapply Forall_impl; [|exact Hd].
    intros d Hn Hs. apply strip_all_space in Hs.
    unfold nonblank_text in Hn. congruence. }
  split; [|split].
  - intros data warning doc st Hd Hs.
    rewrite add_post_run, Hd, nonempty_strip, Hs. simpl. auto.
  - intros files st.
    destruct (grows_load_files files st) as (docs & evs & E & Hd & _).
    exists docs, evs. auto.
  - intros dir docs st' H.
    destruct (load_documents_shape dir initial) as (posts & evs & _ & Hd & R).
    exists posts. split; [|auto].
    rewrite (R docs) by now rewrite H. reflexivity.
Qed.

End Loader.

(** ** Concrete runs, with [Json.loads] and [strict_str] *)

(** C2, as stated, fails: in a line-delimited file whose second line
    is not JSON, the record on the third line is never read, and the
    only message is the parse error of the file. Without the second
    line both records become Documents. *)
Lemma later_record_lost :
  let st := snd (load_files Json.loads strict_str [readable broken_jsonl]
                   initial) in
  map text (all_documents st) = ["a"]
  /\ stdout st = [ErrorParsing "posts.jsonl"]
  /\ splitlines (snd broken_jsonl) = [record "a"; "not json"; record "b"]
  /\ (exists doc,
        option_map (post_document strict_str) (Json.decode (record "b"))
        = Some (inr doc)
        /\ text doc = "b")
  /\ ~ In "b" (map text (all_documents st))
  /\ map text
       (all_documents
          (snd (load_files Json.loads strict_str [readable sound_jsonl]
                  initial)))
     = ["a"; "b"].
Proof.
  vm_compute. repeat split.
  - eexists. split; reflexivity.
  - intros [H|[]]. discriminate.
Qed.

Lemma malformed_input_isolated_witness :
  jsonl_loop Json.loads strict_str "tags.jsonl"
    (splitlines (snd bad_tags_jsonl)) 0 0 false initial
  = jsonl_loop Json.loads strict_str "tags.jsonl" [record "b"] 1 1 true
      (snd (print (ErrorPostOnLine 1 "tags.jsonl" TypeError) initial))
  /\ jsonl_loop (loads_but "1") strict_str "big.jsonl"
       ["1"; record "b"] 0 0 false initial
     = jsonl_loop (loads_but "1") strict_str "big.jsonl" [record "b"]
         1 0 false
         (snd (print (ErrorPostOnLine 1 "big.jsonl" ValueError) initial))
  /\ load_file Json.loads strict_str "posts.jsonl" (snd broken_jsonl)
       initial
     = (Ret tt,
        snd (print (ErrorParsing "posts.jsonl")
               (snd (jsonl_loop Json.loads strict_str "posts.jsonl"
                       [record "a"] 0 0 false initial))))
  /\ load_files Json.loads strict_str
       ([readable broken_jsonl] ++ [readable sound_jsonl]) initial
     = load_files Json.loads strict_str [readable sound_jsonl]
         (snd (load_files Json.loads strict_str [readable broken_jsonl]
                 initial)).
Proof.
  split; [|split; [|split]].
  - refine (proj1 (malformed_input_isolated Json.loads strict_str)
              "tags.jsonl" _ [record "b"] 0 0 false
              (VDict [("content", VStr "a"); ("tags", VList [VInt 1])])
              TypeError initial _ _ _); reflexivity.
  - refine (proj1 (proj2 (malformed_input_isolated (loads_but "1")
                            strict_str))
              "big.jsonl" "1" [record "b"] 0 0 false ValueError initial
              _ _ _); try reflexivity; discriminate.
  - refine (proj1 (proj2 (proj2 (malformed_input_isolated Json.loads
                                   strict_str)))
              "posts.jsonl" (snd broken_jsonl) [record "a"] "not json"
              [record "b"] initial _ _ _ _ _);
      try reflexivity; discriminate.
  - refine (proj1 (proj2 (proj2 (proj2 (proj2
              (malformed_input_isolated Json.loads strict_str)))))
              [readable broken_jsonl] [readable sound_jsonl] initial _).
    reflexivity.
Defined.

(** C3, as stated, fails both ways: in a JSON array written over
    several lines after an empty line, the first non-empty line fails
    to parse, yet the file is not decoded as a whole and is given up
    with a parse error; an empty file has no non-empty line, yet the
    decoding of the whole content is attempted. *)
Lemma fallback_not_on_first_nonblank :
  first_nonblank_fails Json.loads (splitlines (snd array_after_blank))
  = true
  /\ load_file Json.loads strict_str "posts.json" (snd array_after_blank)
       initial
     = (Ret tt, mkState [] [ErrorParsing "posts.json"])
  /\ Json.decode (snd array_after_blank)
     = Some (VList [VDict [("content", VStr "a")]])
  /\ first_nonblank_fails Json.loads (splitlines (snd empty_file)) = false
  /\ load_file Json.loads strict_str "empty.json" (snd empty_file) initial
     = (Ret tt,
        mkState [] [AttemptArray "empty.json"; ErrorParsing "empty.json"]).
Proof. vm_compute. repeat split. Qed.

Lemma fallback_condition_witness :
  falls_back Json.loads (splitlines (snd array_file))
  = first_nonblank_fails Json.loads (splitlines (snd array_file))
  /\ load_file Json.loads strict_str "posts.json" (snd array_after_blank)
       initial
     = (Ret tt, extend initial [] [ErrorParsing "posts.json"])
  /\ snd (load_file Json.loads strict_str "post.json" (snd object_file)
            initial)
     = extend initial []
         (undecoded_errors Json.loads "post.json" 0
            (splitlines (snd object_file))
          ++ [AttemptArray "post.json"; ErrorNotArray "post.json"])
  /\ snd (load_file Json.loads strict_str "empty.json" (snd empty_file)
            initial)
     = extend initial []
         (undecoded_errors Json.loads "empty.json" 0
            (splitlines (snd empty_file))
          ++ [AttemptArray "empty.json"; ErrorParsing "empty.json"]).
Proof.
  split; [|split; [|split]].
  - refine (proj1 (proj2 (fallback_condition Json.loads strict_str
                            "posts.json" (snd array_file) initial))
              "[" [record "a"; "]"] _ _ _); try reflexivity.
    intros e. vm_compute. now intros [= <-].
  - refine (proj1 (proj2 (proj2
              (fallback_condition Json.loads strict_str
                 "posts.json" (snd array_after_blank) initial)))
              [""] "[" [record "a"; "]"] _ _ _ _ _);
      try reflexivity; discriminate.
  - refine (proj2 (proj2 (proj2 (proj2
                (fallback_condition Json.loads strict_str
                   "post.json" (snd object_file) initial))))
              _ (VDict [("content", VStr "a")]) _ _);
      try reflexivity; discriminate.
  - refine (proj1 (proj2 (proj2 (proj2
                (fallback_condition Json.loads strict_str
                   "empty.json" (snd empty_file) initial))))
              _ _); reflexivity.
Defined.

(** A line on which the decoder raises a [ValueError] (an integer of
    too many digits, say) is reported and passed over; when no other
    line decodes, the whole content is tried, and what it raises is
    the error of the file. *)
Lemma undecoded_line_then_fallback :
  load_file (loads_but "1") strict_str "big.json" "1" initial
  = (Ret tt,
     mkState []
       [ErrorPostOnLine 1 "big.json" ValueError; AttemptArray "big.json";
        ErrorFile "big.json" ValueError])
  /\ falls_back (loads_but "1") (splitlines "1") = true
  /\ first_nonblank_fails (loads_but "1") (splitlines "1") = true.
Proof. vm_compute. repeat split. Qed.




(** C6, as stated, fails: a course page with an empty text is a
    Document of the list the function returns; nothing tests the text
    of a course document. *)
Lemma blank_course_document_kept :
  load_documents_with_metadata Json.loads strict_str
    (mkDataDir (Some (inr [empty_page])) None) initial
  = (Ret [as_course_content empty_page],
     mkState [as_course_content empty_page]
       [LoadingCourseContent; LoadedCourseContent 1;
        DiscoursePostsNotFound; LoadedTotal 1])
  /\ text (as_course_content empty_page) = ""
  /\ strip (text (as_course_content empty_page)) = "".
Proof. repeat split. Qed.

Lemma blank_text_never_kept_witness :
  add_post strict_str (VDict whitespace_only) (WarnEmptyLine 1 "posts.jsonl")
    initial
  = (Ret tt, snd (print (WarnEmptyLine 1 "posts.jsonl") initial))
  /\ exists posts,
       [as_course_content empty_page]
       = map as_course_content
           (course_docs_of (mkDataDir (Some (inr [empty_page])) None))
         ++ posts
       /\ Forall (fun d => strip (text d) <> "") posts.
Proof.
  split.
  - refine (proj1 (proj1 (blank_text_never_kept Json.loads strict_str)
                     (VDict whitespace_only) (WarnEmptyLine 1 "posts.jsonl")
                     _ initial _ _)); reflexivity.
  - refine (proj2 (proj2 (blank_text_never_kept Json.loads strict_str))
              (mkDataDir (Some (inr [empty_page])) None) _ _ _).
    reflexivity.
Defined.

End LoaderProofs.

(* ================================================================== *)
(** * More on the record normalizer *)
(* ================================================================== *)

Module LoaderMore.
Import Py ProcessData Words Derived Samples PyFacts LoaderProofs.
Local Open Scope py_scope.

Section Loader.

Variable json_loads : string -> exn + value.
Variable Document_text : value -> option string.

(** ** A file read line by line *)

Lemma after_line_kept fn n data st :
  exists evs,
    after_line Document_text fn n data st
    = extend st (kept Document_text data) evs
    /\ Forall line_event evs.
Proof.
  unfold Words.after_line, kept.
  destruct (post_document Document_text data) as [e|doc].
  - eexists. rewrite print_extend. split; [reflexivity|].
    constructor; simpl; auto.
  - destruct (nonempty (strip (text doc))).
    + exists []. rewrite append_extend. auto.
    + eexists. rewrite print_extend. split; [reflexivity|].
      constructor; simpl; auto.
Qed.

Lemma kept_of_lines_blank line rest :
  blank line = true ->
  kept_of_lines json_loads Document_text (line :: rest)
  = kept_of_lines json_loads Document_text rest.
Proof. intro H. unfold kept_of_lines. simpl. now rewrite H. Qed.

Lemma kept_of_lines_decoded line rest data :
  blank line = false -> json_loads line = inr data ->
  kept_of_lines json_loads Document_text (line :: rest)
  = kept Document_text data
    ++ kept_of_lines json_loads Document_text rest.
Proof. intros H1 H2. unfold kept_of_lines. simpl. now rewrite H1, H2. Qed.

Lemma jsonl_loop_all_decode fn lines :
  forall n lp b st,
    all_decode json_loads lines = true ->
    exists evs,
      jsonl_loop json_loads Document_text fn lines n lp b st
      = (Ret (b || existsb (fun l => negb (blank l)) lines),
         extend st (kept_of_lines json_loads Document_text lines) evs)
      /\ Forall line_event evs.
Proof.
  induction lines as [|line rest IH]; intros n lp b st H.
  - exists []. simpl. now rewrite orb_false_r, extend_nil.
  - simpl in H. apply andb_true_iff in H. destruct H as [H1 H2].
    destruct (blank line) eqn:Hb.
    + rewrite jsonl_loop_blank, kept_of_lines_blank by assumption.
      simpl existsb. rewrite Hb. simpl.
      destruct (IH (S n) lp b st H2) as (evs & E & L).
      exists evs. now rewrite E.
    + simpl in H1. destruct (json_loads line) as [e|data] eqn:Hd;
        [discriminate|].
      rewrite (jsonl_loop_decoded _ _ _ _ _ _ _ _ data) by assumption.
      rewrite (kept_of_lines_decoded _ _ data) by assumption.
      simpl existsb. rewrite Hb. simpl. rewrite orb_true_r.
      destruct (after_line_kept fn n data st) as (e1 & E1 & L1).
      rewrite E1.
      destruct (IH (S n) (S lp) true
                  (extend st (kept Document_text data) e1) H2)
        as (e2 & E2 & L2).
      exists (e1 ++ e2). rewrite E2, extend_extend.
      split; [reflexivity | now apply Forall_app].
Qed.

(** X1: a file in which every line that is not blank decodes, and
    that has such a line, is read line by line to its end: it adds,
    in the order of the lines, the Document of every record whose
    Document can be built and has a text that is not blank, and it
    prints nothing but the messages of single lines. *)
Theorem line_mode_documents (fn content : string) (st : state)
    (Hdec : all_decode json_loads (splitlines content) = true)
    (Hsome : existsb (fun l => negb (blank l)) (splitlines content) = true) :
  exists evs,
    load_file json_loads Document_text fn content st
    = (Ret tt,
       extend st (kept_of_lines json_loads Document_text
                    (splitlines content)) evs)
    /\ Forall line_event evs.
Proof.
  destruct (jsonl_loop_all_decode fn (splitlines content) 0 0 false st Hdec)
    as (evs & E & L).
  exists evs. split; [|exact L].
  unfold ProcessData.load_file, ProcessData.file_body, try_except.
  rewrite (bind_run _ _ _ _ _ E). rewrite Hsome. reflexivity.
Qed.

(** ** A file read as one array *)

Lemma array_loop_builds fn items :
  forall n st,
    forallb (builds Document_text) items = true ->
    array_loop Document_text fn items n st
    = (Ret tt,
       extend st (flat_map (kept Document_text) items)
         (item_warnings Document_text fn n items)).
Proof.
  induction items as [|data rest IH]; intros n st H.
  - simpl. now rewrite extend_nil.
  - simpl in H. apply andb_true_iff in H. destruct H as [H1 H2].
    simpl. unfold bind. rewrite add_post_run.
    unfold builds in H1. unfold kept.
    destruct (post_document Document_text data) as [e|doc];
      [discriminate|].
    destruct (nonempty (strip (text doc)));
      rewrite ?append_extend, ?print_extend, IH, extend_extend
        by assumption; reflexivity.
Qed.

Lemma array_loop_stops fn good bad rest e :
  forall n st,
    forallb (builds Document_text) good = true ->
    post_document Document_text bad = inl e ->
    array_loop Document_text fn (good ++ bad :: rest) n st
    = (Raise e,
       extend st (flat_map (kept Document_text) good)
         (item_warnings Document_text fn n good)).
Proof.
  induction good as [|data good' IH]; intros n st H Hbad.
  - simpl. unfold bind. rewrite add_post_run, Hbad.
    now rewrite extend_nil.
  - simpl in H. apply andb_true_iff in H. destruct H as [H1 H2].
    simpl. unfold bind. rewrite add_post_run.
    unfold builds in H1. unfold kept.
    destruct (post_document Document_text data) as [e'|doc];
      [discriminate|].
    destruct (nonempty (strip (text doc)));
      rewrite ?append_extend, ?print_extend, IH, extend_extend
        by assumption; reflexivity.
Qed.

Lemma item_warnings_events fn items :
  forall n, Forall item_event (item_warnings Document_text fn n items).
Proof.
  induction items as [|data rest IH]; intro n; simpl; [constructor|].
  apply Forall_app. split; [|apply IH].
  destruct (post_document Document_text data) as [e|doc]; [constructor|].
  destruct (nonempty (strip (text doc))); repeat constructor.
Qed.

(** X2: when the whole content is decoded and is an array whose items
    can all be turned into Documents, the file adds, in the order of
    the items, the Document of every item whose text is not blank, it
    prints a warning for the others, and the number it reports at the
    end counts the post Documents of the whole list, those of earlier
    files included. What is printed is given in full: the errors of
    the lines passed over on the way to the fallback, the message of
    the attempt, one warning with its number for each item of blank
    text, and the count. *)
Theorem array_mode_documents (fn content : string) (st : state)
    (items : list value)
    (Hfall : falls_back json_loads (splitlines content) = true)
    (Hdec : json_loads content = inr (VList items))
    (Hall : forallb (builds Document_text) items = true) :
  load_file json_loads Document_text fn content st
  = (Ret tt,
     extend st (flat_map (kept Document_text) items)
       (undecoded_errors json_loads fn 0 (splitlines content)
        ++ AttemptArray fn
           :: item_warnings Document_text fn 0 items
           ++ [LoadedFromArray
                 (length (filter is_discourse_post
                            (all_documents st
                             ++ flat_map (kept Document_text) items)))]))
  /\ Forall item_event (item_warnings Document_text fn 0 items).
Proof.
  split; [|apply item_warnings_events].
  rewrite load_file_fallback by assumption.
  unfold try_except, loads. rewrite Hdec.
  rewrite (bind_run (ret (VList items)) _ _ (VList items) _ eq_refl).
  rewrite (bind_run _ _ _ _ _ (array_loop_builds fn items 0 _ Hall)).
  unfold bind, get_documents.
  rewrite extend_extend. simpl app.
  unfold print, extend. simpl. now rewrite <- !app_assoc.
Qed.

(** X3: in an array, the first item that cannot be turned into a
    Document ends the file: the Documents of the items before it stay,
    the error of the file is printed with the exception, and the items
    after it are not read. What is printed is given in full: the
    errors of the lines passed over on the way to the fallback, the
    message of the attempt, the warnings of the items before the
    failing one, and the error of the file. *)
Theorem array_mode_stops (fn content : string) (st : state)
    (good rest : list value) (bad : value) (e : exn)
    (Hfall : falls_back json_loads (splitlines content) = true)
    (Hdec : json_loads content = inr (VList (good ++ bad :: rest)))
    (Hgood : forallb (builds Document_text) good = true)
    (Hbad : post_document Document_text bad = inl e) :
  load_file json_loads Document_text fn content st
  = (Ret tt,
     extend st (flat_map (kept Document_text) good)
       (undecoded_errors json_loads fn 0 (splitlines content)
        ++ AttemptArray fn
           :: item_warnings Document_text fn 0 good ++ [ErrorFile fn e]))
  /\ Forall item_event (item_warnings Document_text fn 0 good).
Proof.
  split; [|apply item_warnings_events].
  rewrite load_file_fallback by assumption.
  unfold try_except, loads. rewrite Hdec.
  rewrite (bind_run (ret (VList (good ++ bad :: rest))) _ _
             (VList (good ++ bad :: rest)) _ eq_refl).
  unfold bind.
  rewrite (array_loop_stops fn good bad rest e 0 _ Hgood Hbad).
  assert (Hne : e <> JSONDecodeError).
  { intros ->. exact (post_document_never_json Document_text bad Hbad). }
  rewrite extend_extend. simpl app.
  destruct e; try congruence;
    unfold print, extend; simpl; now rewrite <- !app_assoc.
Qed.

(** X4: a file of one line that decodes to anything but an object, a
    JSON array written on a single line for instance, gives no
    Document: the line decodes, so the content is never decoded as an
    array, and the line is reported with [AttributeError]. *)
Theorem one_line_not_object (fn content line : string) (st : state)
    (v : value)
    (Hlines : splitlines content = [line])
    (Hblank : blank line = false)
    (Hdec : json_loads line = inr v)
    (Hv : forall d, v <> VDict d) :
  load_file json_loads Document_text fn content st
  = (Ret tt, extend st [] [ErrorPostOnLine 1 fn AttributeError]).
Proof.
  unfold ProcessData.load_file, ProcessData.file_body, try_except, bind.
  rewrite Hlines.
  rewrite (jsonl_loop_decoded _ _ _ _ _ _ _ _ v) by assumption.
  simpl jsonl_loop. cbv [ret]. simpl negb. cbv iota.
  unfold Words.after_line.
  assert (E : post_document Document_text v = inl AttributeError).
  { destruct v; try reflexivity. exfalso. exact (Hv d eq_refl). }
  rewrite E, print_extend. reflexivity.
Qed.

(** ** The files of the directory *)

(** X5: only the files whose name ends in [.jsonl] or [.json] count:
    the others are not opened, add nothing and print nothing. *)
Theorem other_files_ignored (files : list (string * (exn + string)))
    (st : state) :
  load_files json_loads Document_text files st
  = load_files json_loads Document_text
      (filter has_post_extension files) st.
Proof.
  revert st. induction files as [|[fn opened] rest IH]; intro st;
    [reflexivity|].
  simpl filter. unfold has_post_extension at 1. simpl fst.
  destruct (endswith fn ".jsonl" || endswith fn ".json") eqn:E.
  - rewrite !load_files_cons, E.
    destruct opened as [e|content]; [reflexivity | apply IH].
  - rewrite load_files_cons, E. apply IH.
Qed.

(** X20: a file of the directory that cannot be opened, or whose bytes
    are not UTF-8, ends the whole run: it is opened and read outside
    the [try] of line 69, so the exception leaves the loop over the
    files and the function, no list is returned, and the files after
    it are not opened; what the files before it added is in the list
    that is lost. *)
Theorem unreadable_file_aborts
    (files1 files2 : list (string * (exn + string))) (fn : string)
    (e : exn) (st : state)
    (Hread : all_readable files1 = true)
    (Hext : endswith fn ".jsonl" || endswith fn ".json" = true) :
  load_files json_loads Document_text (files1 ++ (fn, inl e) :: files2) st
  = (Raise e, snd (load_files json_loads Document_text files1 st))
  /\ (forall dir,
        discourse_posts dir = Some (files1 ++ (fn, inl e) :: files2) ->
        (forall e', course_content dir <> Some (inl e')) ->
        fst (load_documents_with_metadata json_loads Document_text dir st)
        = Raise e).
Proof.
  assert (L : forall st0,
             load_files json_loads Document_text
               (files1 ++ (fn, inl e) :: files2) st0
             = (Raise e,
                snd (load_files json_loads Document_text files1 st0))).
  { intro st0. rewrite load_files_app by assumption.
    now rewrite load_files_cons, Hext. }
  split; [apply L|].
  intros dir Hd Hc. unfold ProcessData.load_documents_with_metadata.
  destruct (course_content_run dir st)
    as (evs1 & _ & R1 & _).
  specialize (R1 Hc).
  set (course := match course_content dir with
                 | Some reader => _ | None => _ end) in *.
  destruct (course st) as [r1 st1] eqn:C. simpl in R1. subst r1.
  rewrite (bind_run _ _ _ _ _ C). rewrite Hd.
  unfold bind at 1. unfold bind at 1. simpl. now rewrite L.
Qed.

(** X21: when the reader of the course directory raises (it does for
    a directory without files), the exception leaves the function
    after the first message: no list is returned and the discussion
    posts are never looked at. *)
Theorem course_reader_error_aborts (dir : data_dir) (e : exn) (st : state)
    (H : course_content dir = Some (inl e)) :
  load_documents_with_metadata json_loads Document_text dir st
  = (Raise e, snd (print LoadingCourseContent st)).
Proof.
  unfold ProcessData.load_documents_with_metadata. rewrite H. reflexivity.
Qed.

(** ** The metadata of every post Document *)

Lemma processed_tags_not_list (v tags : value) :
  processed_tags v = inr tags -> forall l, tags <> VList l.
Proof.
  destruct v as [ | ? | ? | ? | ? | items | ? ]; simpl;
    try (intros [= <-]; discriminate).
  destruct (strs items); [intros [= <-]; discriminate | discriminate].
Qed.

Lemma post_document_schema (data : value) (doc : Document) :
  post_document Document_text data = inr doc -> post_schema doc.
Proof.
  unfold ProcessData.post_document.
  destruct data as [ | ? | ? | ? | ? | ? | d ]; try discriminate.
  destruct (processed_tags (get d "tags")) as [e|tags] eqn:T;
    [discriminate|].
  destruct (Document_text (resolved_text d)) as [t|]; [|discriminate].
  intros [= <-]. unfold post_schema. simpl.
  repeat split. intros l [= E].
  exact (processed_tags_not_list _ _ T l E).
Qed.

Lemma kept_schema (data : value) :
  Forall (fun d => nonblank_text d /\ post_schema d)
         (kept Document_text data).
Proof.
  unfold kept.
  destruct (post_document Document_text data) as [e|doc] eqn:E;
    [constructor|].
  destruct (nonempty (strip (text doc))) eqn:N; [|constructor].
  constructor; [|constructor]. split.
  - now apply nonempty_nonblank.
  - now apply (post_document_schema data).
Qed.

Lemma grows_add_post_schema (data : value) (warning : event) :
  grows (add_post Document_text data warning)
        (fun d => nonblank_text d /\ post_schema d) (fun _ => True).
Proof.
  intros st. rewrite add_post_run.
  pose proof (kept_schema data) as K. unfold kept in K.
  destruct (post_document Document_text data) as [e|doc].
  - exists [], []. simpl. rewrite extend_nil. auto.
  - destruct (nonempty (strip (text doc))).
    + exists [doc], []. cbv [snd]. rewrite <- append_extend. auto.
    + exists [], [warning]. cbv [snd]. rewrite <- print_extend. auto.
Qed.

Lemma grows_jsonl_loop_schema fn lines :
  forall n lp b,
    grows (jsonl_loop json_loads Document_text fn lines n lp b)
          (fun d => nonblank_text d /\ post_schema d) (fun _ => True).
Proof.
  induction lines as [|line rest IH]; intros n lp b; simpl.
  - apply grows_ret.
  - destruct (nonempty (strip line)); [|apply IH].
    destruct (json_loads line) as [e|data].
    + destruct e;
        try (apply grows_bind; [now apply grows_print | intros _; apply IH]).
      destruct ((lp =? 0) && (n =? 0))%nat;
        [apply grows_ret | apply grows_raise].
    + apply grows_bind; [|intros _; apply IH].
      apply grows_try_except; [apply grows_add_post_schema|].
      intros e. destruct e; try (now apply grows_print).
      apply grows_raise.
Qed.

Lemma grows_array_loop_schema fn items :
  forall n,
    grows (array_loop Document_text fn items n)
          (fun d => nonblank_text d /\ post_schema d) (fun _ => True).
Proof.
  induction items as [|data rest IH]; intro n; simpl.
  - apply grows_ret.
  - apply grows_bind; [apply grows_add_post_schema | intros _; apply IH].
Qed.

Lemma grows_load_file_schema fn content :
  grows (load_file json_loads Document_text fn content)
        (fun d => nonblank_text d /\ post_schema d) (fun _ => True).
Proof.
  unfold ProcessData.load_file. apply grows_try_except.
  - unfold ProcessData.file_body. apply grows_bind.
    + apply grows_jsonl_loop_schema.
    + intros is_jsonl. destruct is_jsonl; simpl; [apply grows_ret|].
      apply grows_bind; [now apply grows_print|]. intros _.
      apply grows_bind.
      * unfold loads. apply grows_lift.
      * intros v. destruct v; try now apply grows_print.
        apply grows_bind; [apply grows_array_loop_schema|]. intros _.
        apply grows_bind; [apply grows_get_documents|]. intros docs.
        now apply grows_print.
  - intros e. destruct e; now apply grows_print.
Qed.

Lemma grows_load_files_schema files :
  grows (load_files json_loads Document_text files)
        (fun d => nonblank_text d /\ post_schema d) (fun _ => True).
Proof.
  induction files as [|[fn opened] rest IH]; intro st.
  - exists [], []. simpl. rewrite extend_nil. auto.
  - rewrite load_files_cons.
    destruct (endswith fn ".jsonl" || endswith fn ".json"); [|apply IH].
    destruct opened as [e|content].
    + exists [], []. simpl. rewrite extend_nil. auto.
    + destruct (grows_load_file_schema fn content st)
        as (d1 & e1 & E1 & H1 & _).
      rewrite E1.
      destruct (IH (extend st d1 e1)) as (d2 & e2 & E2 & H2 & _).
      exists (d1 ++ d2), (e1 ++ e2). rewrite E2, extend_extend.
      split; [reflexivity|]. split; [now apply Forall_app|].
      apply Forall_forall. auto.
Qed.

(** X6: every Document the loop over the discussion-post files adds,
    on every path, carries the same eight metadata keys in the same
    order, with [source_type] set to [discourse_post] (so that the
    count of line 147 sees it) and with [tags] that is not a list; and
    when every file the loop opens can be read, the loop returns,
    whatever the files hold. *)
Theorem posts_have_schema (files : list (string * (exn + string)))
    (st : state) :
  (exists docs evs,
      snd (load_files json_loads Document_text files st)
      = extend st docs evs
      /\ Forall post_schema docs)
  /\ (all_readable files = true ->
      exists docs evs,
        load_files json_loads Document_text files st
        = (Ret tt, extend st docs evs)
        /\ Forall post_schema docs).
Proof.
  destruct (grows_load_files_schema files st) as (docs & evs & E & H & _).
  assert (S : Forall post_schema docs).
  { eapply Forall_impl; [|exact H]. now intros d [_ Hd]. }
  split; [now exists docs, evs|].
  intro R. exists docs, evs. split; [|exact S]. rewrite <- E.
  rewrite <- (load_files_returns json_loads Document_text files st R).
  now destruct (load_files json_loads Document_text files st).
Qed.

(** X19: of [url], [topic_title], [post_id], [post_number], [author]
    and [created_at], a key the record does not have is stored as the
    empty string, and a key it has is stored with its value as it is,
    a JSON null included (unlike [tags], where null becomes the empty
    string). *)
Theorem plain_fields_copied
    (data : dict) (doc : Document) (k : string)
    (H : post_document Document_text (VDict data) = inr doc)
    (Hk : In k ["url"; "topic_title"; "post_id"; "post_number";
                "author"; "created_at"]) :
  (lookup data k = None -> lookup (metadata doc) k = Some (VStr ""))
  /\ (forall v, lookup data k = Some v -> lookup (metadata doc) k = Some v).
Proof.
  unfold ProcessData.post_document in H.
  destruct (processed_tags (get data "tags")) as [e|tags]; [discriminate|].
  destruct (Document_text (resolved_text data)) as [t|]; [|discriminate].
  injection H as <-. unfold get_or.
  destruct Hk as [<-|[<-|[<-|[<-|[<-|[<-|[]]]]]]]; simpl;
    (split; [intros -> | intros v ->]; reflexivity).
Qed.

End Loader.

(** ** Concrete runs *)

Lemma plain_fields_copied_witness :
  exists doc,
    post_document strict_str
      (VDict [("content", VStr "x"); ("url", VNone)]) = inr doc
    /\ lookup (metadata doc) "url" = Some VNone
    /\ lookup (metadata doc) "author" = Some (VStr "").
Proof.
  eexists. split; [reflexivity|]. split.
  - refine (proj2 (plain_fields_copied strict_str
                     [("content", VStr "x"); ("url", VNone)] _ "url"
                     eq_refl _) VNone eq_refl).
    simpl. auto.
  - refine (proj1 (plain_fields_copied strict_str
                     [("content", VStr "x"); ("url", VNone)] _ "author"
                     eq_refl _) eq_refl).
    simpl. auto 10.
Defined.

Lemma line_mode_documents_witness :
  exists evs,
    load_file Json.loads strict_str "posts.jsonl" (snd sound_jsonl) initial
    = (Ret tt,
       extend initial
         (kept_of_lines Json.loads strict_str
            (splitlines (snd sound_jsonl))) evs)
    /\ Forall line_event evs.
Proof.
  exact (line_mode_documents Json.loads strict_str "posts.jsonl"
           (snd sound_jsonl) initial eq_refl eq_refl).
Defined.

Lemma array_mode_documents_witness :
  load_file Json.loads strict_str "posts.json" (snd blank_item_array)
    initial
  = (Ret tt,
     extend initial
       (flat_map (kept strict_str)
          [VDict [("content", VStr "a")]; VDict whitespace_only])
       (undecoded_errors Json.loads "posts.json" 0
          (splitlines (snd blank_item_array))
        ++ AttemptArray "posts.json"
           :: item_warnings strict_str "posts.json" 0
                [VDict [("content", VStr "a")]; VDict whitespace_only]
           ++ [LoadedFromArray
                 (length (filter is_discourse_post
                            (all_documents initial
                             ++ flat_map (kept strict_str)
                                  [VDict [("content", VStr "a")];
                                   VDict whitespace_only])))]))
  /\ item_warnings strict_str "posts.json" 0
       [VDict [("content", VStr "a")]; VDict whitespace_only]
     = [WarnEmptyItem 2 "posts.json"].
Proof.
  split; [|reflexivity].
  exact (proj1 (array_mode_documents Json.loads strict_str "posts.json"
                  (snd blank_item_array) initial
                  [VDict [("content", VStr "a")]; VDict whitespace_only]
                  eq_refl eq_refl eq_refl)).
Defined.

Lemma array_mode_stops_witness :
  load_file Json.loads strict_str "mixed.json" (snd mixed_array) initial
  = (Ret tt,
     extend initial
       (flat_map (kept strict_str) [VDict [("content", VStr "a")]])
       (undecoded_errors Json.loads "mixed.json" 0
          (splitlines (snd mixed_array))
        ++ AttemptArray "mixed.json"
           :: item_warnings strict_str "mixed.json" 0
                [VDict [("content", VStr "a")]]
           ++ [ErrorFile "mixed.json" AttributeError])).
Proof.
  exact (proj1 (array_mode_stops Json.loads strict_str "mixed.json"
                  (snd mixed_array) initial [VDict [("content", VStr "a")]]
                  [VDict [("content", VStr "b")]] (VInt 7) AttributeError
                  eq_refl eq_refl eq_refl eq_refl)).
Defined.

Lemma one_line_not_object_witness :
  load_file Json.loads strict_str "compact.json" (snd compact_array)
    initial
  = (Ret tt,
     extend initial [] [ErrorPostOnLine 1 "compact.json" AttributeError]).
Proof.
  refine (one_line_not_object Json.loads strict_str "compact.json"
            (snd compact_array) (snd compact_array) initial
            (VList [VDict [("content", VStr "a")]]) eq_refl eq_refl eq_refl
            _).
  discriminate.
Defined.

Lemma posts_have_schema_witness :
  exists docs evs,
    load_files Json.loads strict_str
      [readable bad_tags_jsonl; readable array_file] initial
    = (Ret tt, extend initial docs evs)
    /\ Forall post_schema docs.
Proof.
  exact (proj2 (posts_have_schema Json.loads strict_str
                  [readable bad_tags_jsonl; readable array_file] initial)
           eq_refl).
Defined.

Lemma unreadable_file_aborts_witness :
  load_files Json.loads strict_str
    ([readable sound_jsonl] ++ undecodable :: [readable array_file])
    initial
  = (Raise UnicodeDecodeError,
     snd (load_files Json.loads strict_str [readable sound_jsonl] initial))
  /\ fst (load_documents_with_metadata Json.loads strict_str
            (mkDataDir None
               (Some ([readable sound_jsonl]
                      ++ undecodable :: [readable array_file])))
            initial)
     = Raise UnicodeDecodeError.
Proof.
  split.
  - exact (proj1 (unreadable_file_aborts Json.loads strict_str
                    [readable sound_jsonl] [readable array_file]
                    "latin1.jsonl" UnicodeDecodeError initial
                    eq_refl eq_refl)).
  - refine (proj2 (unreadable_file_aborts Json.loads strict_str
                     [readable sound_jsonl] [readable array_file]
                     "latin1.jsonl" UnicodeDecodeError initial
                     eq_refl eq_refl)
              (mkDataDir None _) eq_refl _).
    discriminate.
Defined.

Lemma course_reader_error_aborts_witness :
  load_documents_with_metadata Json.loads strict_str
    (mkDataDir (Some (inl ValueError)) (Some [readable sound_jsonl]))
    initial
  = (Raise ValueError, snd (print LoadingCourseContent initial)).
Proof.
  exact (course_reader_error_aborts Json.loads strict_str
           (mkDataDir (Some (inl ValueError)) (Some [readable sound_jsonl]))
           ValueError initial eq_refl).
Defined.

End LoaderMore.
(* ================================================================== *)
(** * More on the POST / handler *)
(* ================================================================== *)

Module HandlerMore.
Import Py Main Words Derived Samples PyFacts HandlerProofs.

Section Handler.

Variable str_field : value -> option string.

(** X7: a request reaches the engine at most once, and exactly once
    when the engine is set and the question is not blank; the engine
    is given the trimmed question. *)
Theorem engine_asked_once
    (query_engine : option Engine) (request : QueryRequest) :
  queries (snd (query_ta str_field query_engine request))
  = match query_engine with
    | Some _ =>
        if all_space (question request) then []
        else [strip (question request)]
    | None => []
    end.
Proof.
  unfold query_ta. destruct query_engine as [engine|]; [|reflexivity].
  rewrite nonempty_strip, negb_involutive.
  destruct (all_space (question request)); [reflexivity|].
  destruct (engine (strip (question request))) as [e|retrieved];
    [reflexivity|].
  destruct (build_links str_field (source_nodes retrieved) []);
    reflexivity.
Qed.

Lemma source_link_without_url (n : Node) :
  has_url n = false -> source_link str_field (node_metadata n) = inr None.
Proof. unfold has_url, source_link. now intros ->. Qed.

Lemma build_links_filter (nodes : list Node) :
  forall acc,
    build_links str_field nodes acc
    = build_links str_field (filter has_url nodes) acc.
Proof.
  induction nodes as [|n rest IH]; intro acc; [reflexivity|].
  simpl. destruct (has_url n) eqn:U.
  - simpl. destruct (source_link str_field (node_metadata n)) as [e|[l|]];
      [reflexivity | apply IH | apply IH].
  - rewrite (source_link_without_url n U). apply IH.
Qed.

(** X8: a retrieved segment whose URL is missing or empty has no part
    in the response: with such segments taken out of what the engine
    returns, the handler answers the same, errors included. *)
Theorem urlless_segments_ignored
    (engine : Engine) (request : QueryRequest) :
  query_ta str_field (Some engine) request
  = query_ta str_field (Some (without_urlless engine)) request.
Proof.
  unfold query_ta, without_urlless.
  destruct (negb (nonempty (strip (question request)))); [reflexivity|].
  destruct (engine (strip (question request))) as [e|retrieved];
    [reflexivity|].
  simpl. now rewrite build_links_filter.
Qed.

Lemma source_link_raises (metadata : dict) (e : exn) :
  source_link str_field metadata = inl e -> e = ValidationError.
Proof.
  unfold source_link. destruct (truthy (get metadata "url"));
    [|discriminate].
  destruct (str_field (get metadata "url"));
    [destruct (str_field (resolve_title metadata))|];
    try discriminate; now intros [= <-].
Qed.

Lemma build_links_fails (nodes : list Node) (bad : Node) (e : exn) :
  In bad nodes ->
  source_link str_field (node_metadata bad) = inl e ->
  forall acc, build_links str_field nodes acc = inl ValidationError.
Proof.
  intros Hin Hbad. induction nodes as [|n rest IH]; [destruct Hin|].
  intro acc. simpl.
  destruct (source_link str_field (node_metadata n)) as [e'|[l|]] eqn:E.
  - now rewrite (source_link_raises _ _ E).
  - destruct Hin as [->|Hin]; [congruence | now apply IH].
  - destruct Hin as [->|Hin]; [congruence | now apply IH].
Qed.

(** X9: one retrieved segment whose URL or title is refused by the
    [SourceLink] model fails the whole request: the answer is the 500
    error with the validation error, printed once, and no link of the
    other segments is returned. *)
Theorem bad_segment_fails_request
    (engine : Engine) (request : QueryRequest) (retrieved : Response)
    (bad : Node) (e : exn)
    (Hq : all_space (question request) = false)
    (Hr : engine (strip (question request)) = inr retrieved)
    (Hin : In bad (source_nodes retrieved))
    (Hbad : source_link str_field (node_metadata bad) = inl e) :
  query_ta str_field (Some engine) request
  = (inl (mkHTTPException 500 (ProcessingError ValidationError)),
     [Queried (strip (question request));
      PrintedQueryError ValidationError]).
Proof.
  unfold query_ta. rewrite nonempty_strip, Hq, Hr. simpl.
  now rewrite (build_links_fails _ bad e Hin Hbad).
Qed.

Lemma build_links_fails_inv (nodes : list Node) (e : exn) :
  forall acc,
    build_links str_field nodes acc = inl e ->
    exists bad,
      In bad nodes /\ source_link str_field (node_metadata bad) = inl e.
Proof.
  induction nodes as [|n rest IH]; intros acc H; [discriminate|].
  simpl in H.
  destruct (source_link str_field (node_metadata n)) as [e'|[l|]] eqn:E.
  - injection H as <-. exists n. split; [now left | exact E].
  - destruct (IH _ H) as (bad & Hin & Hb). exists bad. split; [now right|].
    exact Hb.
  - destruct (IH _ H) as (bad & Hin & Hb). exists bad. split; [now right|].
    exact Hb.
Qed.

(** X10: with the engine set, the 500 error is the answer exactly when
    the question is not blank and either the engine raised, or the
    [SourceLink] model refused a retrieved segment; the error carries
    that exception. An exception never leaves the handler. *)
Theorem server_error_iff
    (engine : Engine) (request : QueryRequest) (e : exn) :
  fst (query_ta str_field (Some engine) request)
  = inl (mkHTTPException 500 (ProcessingError e))
  <-> all_space (question request) = false
      /\ (engine (strip (question request)) = inl e
          \/ exists retrieved bad,
               engine (strip (question request)) = inr retrieved
               /\ In bad (source_nodes retrieved)
               /\ source_link str_field (node_metadata bad) = inl e).
Proof.
  unfold query_ta. rewrite nonempty_strip, negb_involutive.
  destruct (all_space (question request)).
  - split; [discriminate | intros [H _]; discriminate].
  - destruct (engine (strip (question request))) as [e'|retrieved] eqn:Q.
    + simpl. split.
      * intros [= ->]. auto.
      * intros [_ [[= ->]|(r & bad & H & _)]]; [reflexivity|discriminate].
    + destruct (build_links str_field (source_nodes retrieved) [])
        as [e'|ls] eqn:B; simpl.
      * split.
        { intros [= ->]. split; [reflexivity|]. right.
          destruct (build_links_fails_inv _ _ _ B) as (bad & Hin & Hb).
          now exists retrieved, bad. }
        { intros [_ [H|(r & bad & [= <-] & Hin & Hb)]]; [discriminate|].
          rewrite (build_links_fails _ bad e Hin Hb) in B.
          injection B as <-. now rewrite (source_link_raises _ _ Hb). }
      * split; [discriminate|].
        intros [_ [H|(r & bad & [= <-] & Hin & Hb)]]; [discriminate|].
        rewrite (build_links_fails _ bad e Hin Hb) in B. discriminate.
Qed.

Hypothesis str_field_str : forall s, str_field (VStr s) = Some s.

Lemma source_link_string (n : Node) :
  string_valued n = true ->
  source_link str_field (node_metadata n) = inr (hd_error (link_of n)).
Proof.
  unfold string_valued, link_of, has_url, source_link, resolve_title,
    title_if_nonempty, or_, get, string_or_absent.
  destruct (lookup (node_metadata n) "title")
    as [[ | ? | ? | ? | [|c1 s1] | ? | ? ]|]; simpl; try discriminate;
  destruct (lookup (node_metadata n) "topic_title")
    as [[ | ? | ? | ? | [|c2 s2] | ? | ? ]|]; simpl; try discriminate;
  destruct (lookup (node_metadata n) "text")
    as [[ | ? | ? | ? | [|c3 s3] | ? | ? ]|]; simpl; try discriminate;
  destruct (lookup (node_metadata n) "url")
    as [[ | ? | ? | ? | [|c4 s4] | ? | ? ]|]; simpl; try discriminate;
  intros _; rewrite ?str_field_str; reflexivity.
Qed.

Lemma build_links_string (nodes : list Node) :
  forallb string_valued nodes = true ->
  forall acc,
    build_links str_field nodes acc
    = inr (acc ++ flat_map link_of nodes).
Proof.
  induction nodes as [|n rest IH]; intros H acc.
  - simpl. now rewrite app_nil_r.
  - simpl in H. apply andb_true_iff in H. destruct H as [H1 H2].
    simpl. rewrite (source_link_string n H1).
    assert (C : link_of n = [] \/ exists l, link_of n = [l]).
    { unfold link_of. destruct (has_url n); eauto. }
    destruct C as [C|(l & C)]; rewrite C; simpl.
    + now apply IH.
    + rewrite (IH H2). now rewrite <- app_assoc.
Qed.

(** X11: when [title], [topic_title], [text] and [url] hold strings
    wherever the retrieved segments have them, a question that is not
    blank and that the engine answers always succeeds: the answer is
    the text of the engine's response, and the links are, in retrieval
    order, one for each segment with a URL, titled with the first of
    the four that is not empty. *)
Theorem string_metadata_succeeds
    (engine : Engine) (request : QueryRequest) (retrieved : Response)
    (Hq : all_space (question request) = false)
    (Hr : engine (strip (question request)) = inr retrieved)
    (Hs : forallb string_valued (source_nodes retrieved) = true) :
  query_ta str_field (Some engine) request
  = (inr (mkQueryResponse (response_str retrieved)
            (flat_map link_of (source_nodes retrieved))),
     [Queried (strip (question request))]).
Proof.
  unfold query_ta. rewrite nonempty_strip, Hq, Hr. simpl.
  now rewrite (build_links_string _ Hs).
Qed.

End Handler.

Lemma bad_segment_fails_request_witness :
  query_ta strict_str (Some one_bad_segment)
    (mkQueryRequest " pandas? " None)
  = (inl (mkHTTPException 500 (ProcessingError ValidationError)),
     [Queried "pandas?"; PrintedQueryError ValidationError]).
Proof.
  refine (bad_segment_fails_request strict_str one_bad_segment
            (mkQueryRequest " pandas? " None) _ numbered_node
            ValidationError eq_refl eq_refl _ eq_refl).
  simpl. auto.
Defined.

Lemma server_error_iff_witness :
  fst (query_ta strict_str (Some failing) (mkQueryRequest "pandas?" None))
  = inl (mkHTTPException 500 (ProcessingError (QueryError "timeout"))).
Proof.
  apply (proj2 (server_error_iff strict_str failing
                  (mkQueryRequest "pandas?" None) (QueryError "timeout"))).
  split; [reflexivity | left; reflexivity].
Defined.

Lemma string_metadata_succeeds_witness :
  query_ta strict_str (Some two_segments) (mkQueryRequest "pandas?" None)
  = (inr (mkQueryResponse "Use pandas."
            (flat_map link_of [pandas_node; pandas_node])),
     [Queried "pandas?"]).
Proof.
  exact (string_metadata_succeeds strict_str (fun s => eq_refl)
           two_segments (mkQueryRequest "pandas?" None) _
           eq_refl eq_refl eq_refl).
Defined.

End HandlerMore.

(* ================================================================== *)
(** * From the normalizer to the links *)
(* ================================================================== *)

Module EndToEnd.
Import Py Words Derived Samples PyFacts.

Lemma lookup_setitem_same (d : dict) (k : string) (v : value) :
  lookup (setitem d k v) k = Some v.
Proof.
  induction d as [|[k' v'] d IH]; simpl.
  - now rewrite String.eqb_refl.
  - destruct (String.eqb k' k) eqn:E; simpl.
    + now rewrite String.eqb_refl.
    + now rewrite E.
Qed.

Lemma lookup_setitem_other (d : dict) (k k' : string) (v : value) :
  k' <> k -> lookup (setitem d k v) k' = lookup d k'.
Proof.
  intro N. induction d as [|[a v'] d IH]; simpl.
  - destruct (String.eqb_spec k k'); [congruence | reflexivity].
  - destruct (String.eqb_spec a k) as [->|Na]; simpl.
    + destruct (String.eqb_spec k k'); [congruence | reflexivity].
    + destruct (String.eqb a k'); [reflexivity | exact IH].
Qed.

Section Links.

Variable Document_text : value -> option string.
Variable str_field : value -> option string.

Lemma as_course_content_facts (d : ProcessData.Document) :
  ProcessData.text (as_course_content d) = ProcessData.text d
  /\ lookup (ProcessData.metadata (as_course_content d)) "source_type"
     = Some (VStr "course_content")
  /\ (forall k, k <> "source_type" ->
                lookup (ProcessData.metadata (as_course_content d)) k
                = lookup (ProcessData.metadata d) k)
  /\ Main.source_link str_field (ProcessData.metadata (as_course_content d))
     = Main.source_link str_field (ProcessData.metadata d).
Proof.
  unfold as_course_content. simpl. split; [reflexivity|].
  split; [apply lookup_setitem_same|].
  split; [intros k N; now apply lookup_setitem_other|].
  unfold Main.source_link, Main.resolve_title, get.
  now rewrite !lookup_setitem_other by discriminate.
Qed.

(** X12: the loop over the course documents appends every one of
    them, blank or not and in order, with its text and its metadata
    unchanged but for [source_type], which becomes [course_content]
    whatever it was; the link the handler builds from the document is
    not affected. *)
Theorem course_documents_marked
    (course_docs : list ProcessData.Document) (st : ProcessData.state) :
  exists marked,
    ProcessData.add_course_docs course_docs st
    = (ProcessData.Ret tt, extend st marked [])
    /\ Forall2
         (fun d d' =>
            ProcessData.text d' = ProcessData.text d
            /\ lookup (ProcessData.metadata d') "source_type"
               = Some (VStr "course_content")
            /\ (forall k, k <> "source_type" ->
                          lookup (ProcessData.metadata d') k
                          = lookup (ProcessData.metadata d) k)
            /\ Main.source_link str_field (ProcessData.metadata d')
               = Main.source_link str_field (ProcessData.metadata d))
         course_docs marked.
Proof.
  exists (map as_course_content course_docs).
  split; [apply LoaderProofs.add_course_docs_run|].
  induction course_docs as [|d rest IH]; simpl; constructor;
    [apply as_course_content_facts | exact IH].
Qed.

Hypothesis str_field_str : forall s, str_field (VStr s) = Some s.

(** X13: a segment that carries the metadata of a normalized post
    gets the link of the post: the record's [url] with its
    [topic_title], the [url] itself as title when the record has no
    topic title or an empty one, and no link when the record has no
    [url] or an empty one. *)
Theorem post_link
    (data : dict) (doc : ProcessData.Document)
    (H : ProcessData.post_document Document_text (VDict data) = inr doc) :
  (forall u, lookup data "url" = Some (VStr u) -> u <> "" ->
     (forall t, lookup data "topic_title" = Some (VStr t) -> t <> "" ->
                Main.source_link str_field (ProcessData.metadata doc)
                = inr (Some (Main.mkSourceLink u t)))
     /\ (lookup data "topic_title" = None
         \/ lookup data "topic_title" = Some (VStr "") ->
         Main.source_link str_field (ProcessData.metadata doc)
         = inr (Some (Main.mkSourceLink u u))))
  /\ (lookup data "url" = None \/ lookup data "url" = Some (VStr "") ->
      Main.source_link str_field (ProcessData.metadata doc) = inr None).
Proof.
  unfold ProcessData.post_document in H.
  destruct (ProcessData.processed_tags (get data "tags")) as [e|tags];
    [discriminate|].
  destruct (Document_text (ProcessData.resolved_text data)) as [t0|];
    [|discriminate].
  injection H as <-.
  unfold Main.source_link, Main.resolve_title, or_, get, get_or. simpl.
  split.
  - intros u Hu Nu. rewrite Hu.
    assert (Eu : String.eqb u "" = false) by now apply String.eqb_neq.
    split.
    + intros t Ht Nt. rewrite Ht.
      assert (Et : String.eqb t "" = false) by now apply String.eqb_neq.
      simpl. repeat (progress (rewrite ?Eu, ?Et; simpl)).
      now rewrite !str_field_str.
    + intros [Ht|Ht]; rewrite Ht; simpl;
        repeat (progress (rewrite ?Eu; simpl));
        now rewrite !str_field_str.
  - intros [Hu|Hu]; rewrite Hu; reflexivity.
Qed.

End Links.

Lemma post_link_witness :
  exists doc,
    ProcessData.post_document strict_str (VDict pandas_record) = inr doc
    /\ Main.source_link strict_str (ProcessData.metadata doc)
       = inr (Some (Main.mkSourceLink "http://a" "Pandas Basics")).
Proof.
  eexists. split; [reflexivity|].
  refine (proj1 (proj1 (post_link strict_str strict_str (fun s => eq_refl)
                          pandas_record _ eq_refl)
                   "http://a" eq_refl _)
            "Pandas Basics" eq_refl _); discriminate.
Defined.

End EndToEnd.

(* ================================================================== *)
(** * The command-line session *)
(* ================================================================== *)

Module SessionProofs.
Import Py Words Derived Samples PyFacts VirtualTaApp.

Lemma session_cons (query_engine : Main.Engine) line rest :
  session query_engine (line :: rest)
  = if is_exit line then (Exited, [Prompt; Goodbye])
    else if negb (nonempty (strip line)) then
      (fst (session query_engine rest),
       Prompt :: PleaseEnter :: snd (session query_engine rest))
    else
      match query_engine (strip line) with
      | inr response =>
          (fst (session query_engine rest),
           Prompt :: Queried (strip line) :: SaysHeader
           :: Answer (Main.response_str response)
           :: snd (session query_engine rest))
      | inl err =>
          (fst (session query_engine rest),
           Prompt :: Queried (strip line) :: QueryFailed err :: Hint
           :: snd (session query_engine rest))
      end.
Proof.
  simpl. unfold is_exit.
  destruct (is_exit_word (lower (strip line))); [reflexivity|].
  destruct (negb (nonempty (strip line)));
    [now destruct (session query_engine rest)|].
  destruct (query_engine (strip line));
    now destruct (session query_engine rest).
Qed.

(** X14: the engine is asked exactly the inputs that come before the
    first [exit] or [quit], trimmed, the blank ones left out, in the
    order they were typed, whether or not it fails on some of them. *)
Theorem session_asks (query_engine : Main.Engine) (inputs : list string) :
  session_queries (snd (session query_engine inputs)) = asked inputs.
Proof.
  unfold asked. induction inputs as [|line rest IH]; [reflexivity|].
  rewrite session_cons. simpl before_exit.
  destruct (is_exit line); [reflexivity|]. simpl map. simpl filter.
  destruct (nonempty (strip line)); simpl negb; cbv iota.
  - destruct (query_engine (strip line)); simpl;
      now rewrite <- IH.
  - simpl. exact IH.
Qed.

(** X15: the session ends by [exit] or [quit] when one of the inputs
    is such a word, and by the [EOFError] of [input] otherwise; an
    error of the engine never ends it. *)
Theorem session_ending (query_engine : Main.Engine) (inputs : list string) :
  fst (session query_engine inputs)
  = if existsb is_exit inputs then Exited else EOFError.
Proof.
  induction inputs as [|line rest IH]; [reflexivity|].
  rewrite session_cons. simpl existsb.
  destruct (is_exit line); [reflexivity|]. simpl orb.
  destruct (negb (nonempty (strip line))); [exact IH|].
  destruct (query_engine (strip line)); exact IH.
Qed.

(** X16: what is typed after [exit] or [quit] is never read. *)
Theorem nothing_read_after_exit
    (query_engine : Main.Engine) (before after : list string)
    (word : string) (H : is_exit word = true) :
  session query_engine (before ++ word :: after)
  = session query_engine (before ++ [word]).
Proof.
  induction before as [|line rest IH].
  - simpl app. now rewrite !session_cons, H.
  - rewrite <- !app_comm_cons, !session_cons, IH. reflexivity.
Qed.

Lemma isspace_lower_char (c : ascii) :
  isspace (lower_char c) = isspace c.
Proof. destruct c as [[] [] [] [] [] [] [] []]; reflexivity. Qed.

Lemma lower_char_idempotent (c : ascii) :
  lower_char (lower_char c) = lower_char c.
Proof. destruct c as [[] [] [] [] [] [] [] []]; reflexivity. Qed.

Lemma lower_idempotent (s : string) : lower (lower s) = lower s.
Proof.
  induction s as [|c s IH]; simpl; [reflexivity|].
  now rewrite lower_char_idempotent, IH.
Qed.

Lemma lower_lstrip (s : string) : lower (lstrip s) = lstrip (lower s).
Proof.
  induction s as [|c s IH]; simpl; [reflexivity|].
  rewrite isspace_lower_char. now destruct (isspace c).
Qed.

Lemma lower_rstrip (s : string) : lower (rstrip s) = rstrip (lower s).
Proof.
  induction s as [|c s IH]; simpl; [reflexivity|].
  rewrite <- IH, isspace_lower_char.
  destruct (rstrip s); simpl; [now destruct (isspace c) | reflexivity].
Qed.

Lemma lower_strip (s : string) : lower (strip s) = strip (lower s).
Proof. unfold strip. now rewrite lower_rstrip, lower_lstrip. Qed.

Lemma is_exit_case (a b : string) :
  lower a = lower b -> is_exit a = is_exit b.
Proof.
  intro H. unfold is_exit.
  rewrite <- (lower_idempotent (strip a)), <- (lower_idempotent (strip b)).
  now rewrite !lower_strip, H.
Qed.

Lemma lower_app (a b : string) :
  lower (a ++ b)%string = (lower a ++ lower b)%string.
Proof. induction a as [|c a IH]; simpl; [reflexivity | now rewrite IH]. Qed.

Lemma all_space_lower (s : string) : all_space (lower s) = all_space s.
Proof.
  induction s as [|c s IH]; simpl; [reflexivity|].
  now rewrite isspace_lower_char, IH.
Qed.

Lemma lstrip_padding (p s : string) :
  all_space p = true -> lstrip (p ++ s)%string = lstrip s.
Proof.
  induction p as [|c p IH]; simpl; [reflexivity|].
  intro H. apply andb_true_iff in H. destruct H as [-> H]. now apply IH.
Qed.

(** An exit word between whitespace is an exit word after [strip] and
    [lower]. *)
Lemma is_exit_padded (p1 w p2 : string) :
  all_space p1 = true -> all_space p2 = true ->
  lower w = "exit" \/ lower w = "quit" ->
  is_exit (p1 ++ w ++ p2)%string = true.
Proof.
  intros H1 H2 Hw. unfold is_exit.
  rewrite lower_strip, !lower_app. unfold strip.
  rewrite lstrip_padding by now rewrite all_space_lower.
  assert (R : rstrip (lower p2) = "")
    by now apply rstrip_all_space; rewrite all_space_lower.
  destruct Hw as [-> | ->]; simpl; rewrite R; reflexivity.
Qed.

(** X17: [exit] and [quit] end the session whatever the case of their
    letters and whatever whitespace surrounds them: such an input ends
    the session there with the goodbye message, the engine is not
    asked for it and what follows is not read; and of two inputs that
    differ only in the case of their letters, either both end the
    session there or neither does. *)
Theorem exit_ignores_case (query_engine : Main.Engine) :
  (forall p1 w p2 rest,
      all_space p1 = true -> all_space p2 = true ->
      lower w = "exit" \/ lower w = "quit" ->
      session query_engine ((p1 ++ w ++ p2)%string :: rest)
      = (Exited, [Prompt; Goodbye]))
  /\ (forall a b rest1 rest2,
         lower a = lower b ->
         session query_engine (a :: rest1) = (Exited, [Prompt; Goodbye])
         <-> session query_engine (b :: rest2) = (Exited, [Prompt; Goodbye])).
Proof.
  split.
  - intros p1 w p2 rest H1 H2 Hw.
    now rewrite session_cons, is_exit_padded.
  - intros a b rest1 rest2 H.
    rewrite !session_cons, (is_exit_case a b H).
    destruct (is_exit b); [tauto|].
    split; intro E; exfalso; revert E.
    + destruct (negb (nonempty (strip a))); [discriminate|].
      destruct (query_engine (strip a)); discriminate.
    + destruct (negb (nonempty (strip b))); [discriminate|].
      destruct (query_engine (strip b)); discriminate.
Qed.

Lemma nothing_read_after_exit_witness :
  session failing ["  pandas? "; " QUIT "; "more"]
  = session failing ["  pandas? "; " QUIT "].
Proof.
  exact (nothing_read_after_exit failing ["  pandas? "] ["more"] " QUIT "
           eq_refl).
Defined.

Lemma exit_ignores_case_witness :
  session failing [" QuIt  "; "more"] = (Exited, [Prompt; Goodbye])
  /\ (session failing ["Exit"; "more"] = (Exited, [Prompt; Goodbye])
      <-> session failing ["EXIT"] = (Exited, [Prompt; Goodbye])).
Proof.
  split.
  - refine (proj1 (exit_ignores_case failing) " " "QuIt" "  " ["more"]
              eq_refl eq_refl _).
    right. reflexivity.
  - exact (proj2 (exit_ignores_case failing) "Exit" "EXIT" ["more"] []
             eq_refl).
Defined.

End SessionProofs.

(* ================================================================== *)
(** * Building the index *)
(* ================================================================== *)

Module IndexingProofs.
Import Py Indexing.

(** A step of the build raised: nothing says that indexing is
    complete, and the steps did not all return. *)
Ltac fails_before_complete :=
  simpl; split;
  [ let H := fresh in
    intro H; repeat (destruct H as [H|H]; [discriminate|]); destruct H
  | intros (_ & ? & ? & ? & ? & ? & ? & ? & ? & ? & ? & ? & ? & ? & ?);
    congruence ].

Section Backend.

Variables node embedding client collection vector_store storage_context
          index exn : Type.
Variable get_nodes_from_documents
  : list ProcessData.Document -> exn + list node.
Variable OpenAIEmbedding : exn + embedding.
Variable PersistentClient : exn + client.
Variable get_or_create_collection : client -> exn + collection.
Variable ChromaVectorStore : collection -> exn + vector_store.
Variable from_defaults : vector_store -> exn + storage_context.
Variable VectorStoreIndex
  : list node -> embedding -> storage_context -> exn + index.

(** X18: the main block prints that indexing is complete exactly when
    the list of documents is not empty and every step of the build
    returned: the nodes of exactly these documents, the embedding
    model, the client, its collection, the store, the storage context
    and the index built from them. With an empty list it reports that
    nothing was found and ends normally. *)
Theorem complete_iff_built (documents : list ProcessData.Document) :
  (In IndexingComplete
      (fst (main get_nodes_from_documents OpenAIEmbedding PersistentClient
              get_or_create_collection ChromaVectorStore from_defaults
              VectorStoreIndex documents))
   <-> documents <> []
       /\ exists nodes model db coll store context built,
            get_nodes_from_documents documents = inr nodes
            /\ OpenAIEmbedding = inr model
            /\ PersistentClient = inr db
            /\ get_or_create_collection db = inr coll
            /\ ChromaVectorStore coll = inr store
            /\ from_defaults store = inr context
            /\ VectorStoreIndex nodes model context = inr built)
  /\ (documents = [] ->
      main get_nodes_from_documents OpenAIEmbedding PersistentClient
        get_or_create_collection ChromaVectorStore from_defaults
        VectorStoreIndex documents
      = ([StartingPipeline; NoDocumentsFound; CheckDirectories], inr tt)).
Proof.
  split; [|now intros ->].
  unfold main, create_and_persist_index, call, say.
  destruct documents as [|d ds].
  - simpl. split; [|now intros [N _]].
    intros [H|[H|[H|[]]]]; discriminate.
  - set (docs := d :: ds).
    assert (Hdocs : docs <> []) by discriminate. clearbody docs.
    destruct (get_nodes_from_documents docs) as [e|nodes] eqn:E1;
      [fails_before_complete|].
    destruct OpenAIEmbedding as [e|model]; [fails_before_complete|].
    destruct PersistentClient as [e|db]; [fails_before_complete|].
    destruct (get_or_create_collection db) as [e|coll] eqn:E4;
      [fails_before_complete|].
    destruct (ChromaVectorStore coll) as [e|store] eqn:E5;
      [fails_before_complete|].
    destruct (from_defaults store) as [e|context] eqn:E6;
      [fails_before_complete|].
    destruct (VectorStoreIndex nodes model context) as [e|built] eqn:E7;
      [fails_before_complete|].
    simpl. split.
    + intros _. split; [exact Hdocs|].
      now exists nodes, model, db, coll, store, context, built.
    + intros _. do 7 right. now left.
Qed.

End Backend.

Lemma complete_iff_built_witness :
  main (exn := unit) (fun _ => inr [tt]) (inr tt) (inr tt)
    (fun _ : unit => inr tt) (fun _ : unit => inr tt)
    (fun _ : unit => inr tt) (fun _ _ _ => inr tt) []
  = ([StartingPipeline; NoDocumentsFound; CheckDirectories], inr tt).
Proof.
  exact (proj2 (complete_iff_built unit unit unit unit unit unit unit unit
                  (fun _ => inr [tt]) (inr tt) (inr tt)
                  (fun _ => inr tt) (fun _ => inr tt) (fun _ => inr tt)
                  (fun _ _ _ => inr tt) [])
           eq_refl).
Defined.

End IndexingProofs.
